(** * Auto-save coordinator of SingleFileZ: [extension/core/bg/autosave.js]

    A shallow embedding of the background auto-save module and the
    properties of its pending-message registry, its tab lifecycle handlers,
    its eligibility test and its save orchestration.

    Modelling conventions.
    - The two module-level objects [pendingMessages] and [replacedTabIds] are
      finite maps keyed by tab id; together with the persisted tabs data and
      the log of calls made to the collaborators they form the [World].
    - Every handler is a computation in a state-and-exception monad over the
      [World]: [Thrown] stands for a JavaScript exception (a rejected promise
      of an [async] function).
    - A handler runs to completion: an [await] is sequenced like any other
      statement, so interleavings of two handlers at their suspension points
      are outside the model.
    - The imported modules (config, business, downloads, tabs, ui, infobar,
      the compression processor, [getPageData], [URL]) are collaborators.
      Those whose answer the module consumes are fields of [Collaborators];
      a call to any of them is recorded in the log.  The notification-style
      calls ([ui.onStart], [ui.onEnd], [business.onSaveEnd], [tabs.remove],
      [URL.revokeObjectURL]) are recorded and return normally.
    - Collaborators do not mutate the objects handed to them, except
      [infobar.includeScript], which answers with the page data as it left
      them. *)

From Stdlib Require Import ZArith List String Bool Lia.
From stdpp Require Import gmap strings.
Import ListNotations.
Local Open Scope string_scope.
Local Open Scope list_scope.
Local Open Scope Z_scope.

(** ** JavaScript values used by the module *)

(** Truthiness of a number, of a string and of a possibly [undefined] field. *)
Definition truthy_num (n : Z) : bool := negb (Z.eqb n 0).

Definition truthy_str (s : string) : bool :=
  match s with
  | EmptyString => false
  | String _ _ => true
  end.

Definition truthy_opt {A : Type} (truthy : A -> bool) (o : option A) : bool :=
  match o with
  | Some a => truthy a
  | None => false
  end.

(** [s.endsWith(suffix)] *)
Definition endsWith (s suffix : string) : bool :=
  let n := String.length s in
  let k := String.length suffix in
  Nat.leb k n && String.eqb (substring (n - k) k s) suffix.

(** Captured document data (markup, resource lists, dates) are opaque to the
    coordinator: it only copies them around. *)
Definition Data := string.
Definition Blob := string.

(** A browser tab.  The tab rebuilt by [onMessage] from the message fields
    has no [pinned] and no [incognito] property. *)
Record Tab := mkTab {
  tab_id : Z;
  tab_index : Z;
  tab_url : string;
  tab_pinned : bool;
  tab_incognito : option bool
}.

(** The document fields of a save message, copied one by one into the options
    by [saveContent] ([visitDate] is wrapped in a [Date] on the way). *)
Record Payload := mkPayload {
  content : Data;
  url : Data;
  frames : Data;
  canvases : Data;
  fonts : Data;
  stylesheets : Data;
  images : Data;
  posters : Data;
  usedFonts : Data;
  shadowRoots : Data;
  imports : Data;
  referrer : Data;
  updatedResources : Data;
  visitDate : Data
}.

(** A message of the content script.  [msg_ref] is the identity of the
    JavaScript object: the registry stores references, and two messages with
    equal fields are still two messages.  [msg_tab] is the property that
    [onMessage] adds before it stores the message. *)
Record Message := mkMessage {
  msg_ref : nat;
  msg_method : string;
  msg_tabId : Z;
  msg_tabIndex : Z;
  msg_taskId : option Z;
  msg_autoSaveDiscard : bool;
  msg_autoSaveRemove : bool;
  msg_autoSaveUnload : bool;
  msg_payload : Payload;
  msg_tab : option Tab
}.

Definition set_msg_tab (message : Message) (tab : option Tab) : Message :=
  {| msg_ref := msg_ref message;
     msg_method := msg_method message;
     msg_tabId := msg_tabId message;
     msg_tabIndex := msg_tabIndex message;
     msg_taskId := msg_taskId message;
     msg_autoSaveDiscard := msg_autoSaveDiscard message;
     msg_autoSaveRemove := msg_autoSaveRemove message;
     msg_autoSaveUnload := msg_autoSaveUnload message;
     msg_payload := msg_payload message;
     msg_tab := tab |}.

Record Sender := mkSender {
  sender_tab : option Tab;
  sender_url : string
}.

(** What [pendingMessages] holds under a tab id: the marker
    [{ removed: true }] or a stored message. *)
Inductive Entry :=
| ClosedMarker
| SaveRequest (message : Message).

(** Property reads on an entry; the marker has none of the message fields. *)
Definition entry_removed (e : Entry) : bool :=
  match e with
  | ClosedMarker => true
  | SaveRequest _ => false
  end.

Definition entry_autoSaveRemove (e : Entry) : bool :=
  match e with
  | ClosedMarker => false
  | SaveRequest m => msg_autoSaveRemove m
  end.

Definition entry_tab (e : Entry) : option Tab :=
  match e with
  | ClosedMarker => None
  | SaveRequest m => msg_tab m
  end.

Definition entry_taskId (e : Entry) : option Z :=
  match e with
  | ClosedMarker => None
  | SaveRequest m => msg_taskId m
  end.

Definition entry_payload (e : Entry) : option Payload :=
  match e with
  | ClosedMarker => None
  | SaveRequest m => Some (msg_payload m)
  end.

(** The options object: the profile settings that [saveContent] reads, and the
    fields it fills in before the capture. *)
Record Options := mkOptions {
  saveToGDrive : bool;
  includeInfobar : bool;
  autoSaveDiscard : bool;
  autoClose : bool;
  filenameConflictAction : option string;
  insertTextBody : bool;
  createRootDirectory : bool;
  selfExtractingArchive : bool;
  insertCanonicalLink : bool;
  insertMetaNoIndex : bool;
  password : string;
  opt_payload : option Payload;
  backgroundTab : bool;
  autoSave : bool;
  incognito : option bool;
  opt_tabId : option Z;
  opt_tabIndex : option Z
}.

(** Lines 153-171: the assignments that merge the message and the tab into
    the options. *)
Definition merge_message (options : Options) (message : Entry) (tab : Tab) : Options :=
  {| saveToGDrive := saveToGDrive options;
     includeInfobar := includeInfobar options;
     autoSaveDiscard := autoSaveDiscard options;
     autoClose := autoClose options;
     filenameConflictAction := filenameConflictAction options;
     insertTextBody := insertTextBody options;
     createRootDirectory := createRootDirectory options;
     selfExtractingArchive := selfExtractingArchive options;
     insertCanonicalLink := insertCanonicalLink options;
     insertMetaNoIndex := insertMetaNoIndex options;
     password := password options;
     opt_payload := entry_payload message;
     backgroundTab := true;
     autoSave := true;
     incognito := tab_incognito tab;
     opt_tabId := Some (tab_id tab);
     opt_tabIndex := Some (tab_index tab) |}.

Definition set_filenameConflictAction (options : Options) (action : option string) : Options :=
  {| saveToGDrive := saveToGDrive options;
     includeInfobar := includeInfobar options;
     autoSaveDiscard := autoSaveDiscard options;
     autoClose := autoClose options;
     filenameConflictAction := action;
     insertTextBody := insertTextBody options;
     createRootDirectory := createRootDirectory options;
     selfExtractingArchive := selfExtractingArchive options;
     insertCanonicalLink := insertCanonicalLink options;
     insertMetaNoIndex := insertMetaNoIndex options;
     password := password options;
     opt_payload := opt_payload options;
     backgroundTab := backgroundTab options;
     autoSave := autoSave options;
     incognito := incognito options;
     opt_tabId := opt_tabId options;
     opt_tabIndex := opt_tabIndex options |}.

(** The object literal handed to the compression processor. *)
Record ProcessOptions := mkProcessOptions {
  po_insertTextBody : bool;
  po_url : string;
  po_createRootDirectory : bool;
  po_tabId : Z;
  po_selfExtractingArchive : bool;
  po_insertCanonicalLink : bool;
  po_insertMetaNoIndex : bool;
  po_password : string
}.

Record PageData := mkPageData {
  pd_filename : string;
  pd_content : Data;
  pd_url : option string
}.

Definition set_pd_url (pageData : PageData) (u : string) : PageData :=
  {| pd_filename := pd_filename pageData;
     pd_content := pd_content pageData;
     pd_url := Some u |}.

Record TestSkip := mkTestSkip {
  skipped : bool;
  ts_filenameConflictAction : option string
}.

Record Rule := mkRule {
  autoSaveProfile : option string
}.

(** The object kept by [tabs-data.js]: two global flags and one record per
    tab id. *)
Record TabData := mkTabData {
  td_autoSave : bool
}.

Record AllTabsData := mkAllTabsData {
  autoSaveAll : bool;
  autoSaveUnpinned : bool;
  perTab : gmap Z TabData
}.

(** ** Exceptions and collaborators *)

Inductive Error :=
| TypeError (what : string)
| Failure (reason : string).

(** The answer of a collaborator that may throw (or reject). *)
Inductive Outcome (A : Type) :=
| Returns (a : A)
| Throws (e : Error).
Arguments Returns {A} a.
Arguments Throws {A} e.

Class Collaborators := {
  config_getOptions : string -> bool -> option Options;
  config_getRule : string -> option Rule;
  config_DISABLED_PROFILE_NAME : string;
  getPageData : Options -> Outcome PageData;
  downloads_testSkipSave : string -> Options -> Outcome TestSkip;
  infobar_includeScript : PageData -> Outcome PageData;
  compression_process : PageData -> ProcessOptions -> Outcome Blob;
  downloads_uploadPage : option Z -> string -> Blob -> Options -> Outcome unit;
  URL_createObjectURL : Blob -> string;
  downloads_downloadPage : PageData -> Options -> Outcome unit
}.

(** Calls that leave the module, in the order they are made.  [EvSaveContent]
    marks an entry into [saveContent] with its two arguments. *)
Inductive Event :=
| EvSaveContent (message : Entry) (tab : option Tab)
| UiOnStart (tabId : Z) (step : Z) (isAutoSave : bool)
| GetPageData (options : Options)
| TestSkipSave (filename : string) (options : Options)
| IncludeScript (pageData : PageData)
| CompressionProcess (pageData : PageData) (processOptions : ProcessOptions)
| UploadPage (taskId : option Z) (filename : string) (blob : Blob) (options : Options)
| CreateObjectURL (blob : Blob) (objectUrl : string)
| DownloadPage (pageData : PageData) (options : Options)
| BusinessOnSaveEnd (taskId : option Z)
| TabsRemove (tabId : Z)
| RevokeObjectURL (objectUrl : string)
| UiOnEnd (tabId : Z) (isAutoSave : bool).

Record World := mkWorld {
  pendingMessages : gmap Z Entry;
  replacedTabIds : gmap Z Z;
  tabsData : AllTabsData;
  log : list Event
}.

(** The state of the module when it is loaded. *)
Definition initial (data : AllTabsData) : World :=
  {| pendingMessages := ∅; replacedTabIds := ∅; tabsData := data; log := [] |}.

(** ** The monad of handlers *)

Inductive Result (A : Type) :=
| Ok (a : A)
| Thrown (e : Error).
Arguments Ok {A} a.
Arguments Thrown {A} e.

Definition M (S A : Type) : Type := S -> Result A * S.

Definition ret {S A : Type} (a : A) : M S A := fun s => (Ok a, s).

Definition throw {S A : Type} (e : Error) : M S A := fun s => (Thrown e, s).

Definition bind {S A B : Type} (c : M S A) (k : A -> M S B) : M S B :=
  fun s =>
    match c s with
    | (Ok a, s') => k a s'
    | (Thrown e, s') => (Thrown e, s')
    end.

Definition gets {S A : Type} (f : S -> A) : M S A := fun s => (Ok (f s), s).

Definition modify {S : Type} (f : S -> S) : M S unit := fun s => (Ok tt, f s).

(** [try { body } finally { handler }]: the handler runs on every exit of the
    body; an exception of the handler replaces the outcome of the body. *)
Definition try_finally {S A : Type} (body : M S A) (handler : M S unit) : M S A :=
  fun s =>
    match body s with
    | (r, s1) =>
        match handler s1 with
        | (Ok _, s2) => (r, s2)
        | (Thrown e, s2) => (Thrown e, s2)
        end
    end.

Notation "'let*' x ':=' c 'in' k" := (bind c (fun x => k))
  (at level 10, x name, c at level 100, k at level 200).
Notation "c ';;;' k" := (bind c (fun _ => k))
  (at level 100, k at level 200, right associativity).

(** Updates of the world. *)
Definition set_pendingMessages (f : gmap Z Entry -> gmap Z Entry) (w : World) : World :=
  {| pendingMessages := f (pendingMessages w);
     replacedTabIds := replacedTabIds w;
     tabsData := tabsData w;
     log := log w |}.

Definition set_replacedTabIds (f : gmap Z Z -> gmap Z Z) (w : World) : World :=
  {| pendingMessages := pendingMessages w;
     replacedTabIds := f (replacedTabIds w);
     tabsData := tabsData w;
     log := log w |}.

Definition record_event (e : Event) (w : World) : World :=
  {| pendingMessages := pendingMessages w;
     replacedTabIds := replacedTabIds w;
     tabsData := tabsData w;
     log := log w ++ [e] |}.

Definition emit (e : Event) : M World unit := modify (record_event e).

(** ** [saveContent] (lines 148-215) *)

(** The local variables of [saveContent] that its [finally] block reads,
    next to the world. *)
Record Frame := mkFrame {
  fr_options : Options;
  fr_pageData : option PageData;
  fr_world : World
}.

Definition on_world (f : World -> World) (fr : Frame) : Frame :=
  {| fr_options := fr_options fr;
     fr_pageData := fr_pageData fr;
     fr_world := f (fr_world fr) |}.

Definition assign_options (options : Options) (fr : Frame) : Frame :=
  {| fr_options := options;
     fr_pageData := fr_pageData fr;
     fr_world := fr_world fr |}.

Definition assign_pageData (pageData : PageData) (fr : Frame) : Frame :=
  {| fr_options := fr_options fr;
     fr_pageData := Some pageData;
     fr_world := fr_world fr |}.

Definition emitF (e : Event) : M Frame unit := modify (on_world (record_event e)).

(** A call to a collaborator that may throw: the call is recorded, then its
    outcome is the outcome of the expression. *)
Definition call {A : Type} (e : Event) (o : Outcome A) : M Frame A :=
  fun fr =>
    (match o with
     | Returns a => Ok a
     | Throws err => Thrown err
     end, on_world (record_event e) fr).

(** Runs a block with fresh locals and drops them at its end. *)
Definition with_locals {A : Type} (options : Options) (c : M Frame A) : M World A :=
  fun w =>
    match c {| fr_options := options; fr_pageData := None; fr_world := w |} with
    | (r, fr) => (r, fr_world fr)
    end.

(** [replacedTabIds[tabId] || tabId] *)
Definition current_tab_id (replaced : gmap Z Z) (tabId : Z) : Z :=
  match replaced !! tabId with
  | Some added => if truthy_num added then added else tabId
  | None => tabId
  end.

Section Autosave.

Context {C : Collaborators}.

Definition process_options (options : Options) (tab : Tab) (tabId : Z) : ProcessOptions :=
  {| po_insertTextBody := insertTextBody options;
     po_url := tab_url tab;
     po_createRootDirectory := createRootDirectory options;
     po_tabId := tabId;
     po_selfExtractingArchive := selfExtractingArchive options;
     po_insertCanonicalLink := insertCanonicalLink options;
     po_insertMetaNoIndex := insertMetaNoIndex options;
     po_password := password options |}.

(** Lines 174-201, the body of the [try]. *)
Definition saveContent_try (message : Entry) (tab : Tab) (tabId : Z) : M Frame unit :=
  let* options := gets fr_options in
  let* pageData := call (GetPageData options) (getPageData options) in
  modify (assign_pageData pageData) ;;;
  let* skipped :=
    (if negb (saveToGDrive options) then
       let* testSkip :=
         call (TestSkipSave (pd_filename pageData) options)
              (downloads_testSkipSave (pd_filename pageData) options) in
       modify (assign_options
                 (set_filenameConflictAction options (ts_filenameConflictAction testSkip))) ;;;
       ret (skipped testSkip)
     else ret false) in
  if negb skipped then
    let* options := gets fr_options in
    let* pageData :=
      (if includeInfobar options then
         let* updated := call (IncludeScript pageData) (infobar_includeScript pageData) in
         modify (assign_pageData updated) ;;;
         ret updated
       else ret pageData) in
    let* blob :=
      call (CompressionProcess pageData (process_options options tab tabId))
           (compression_process pageData (process_options options tab tabId)) in
    if saveToGDrive options then
      call (UploadPage (entry_taskId message) (pd_filename pageData) blob options)
           (downloads_uploadPage (entry_taskId message) (pd_filename pageData) blob options)
    else
      let objectUrl := URL_createObjectURL blob in
      emitF (CreateObjectURL blob objectUrl) ;;;
      modify (assign_pageData (set_pd_url pageData objectUrl)) ;;;
      call (DownloadPage (set_pd_url pageData objectUrl) options)
           (downloads_downloadPage (set_pd_url pageData objectUrl) options)
  else ret tt.

(** Lines 203-212, the [finally] block. *)
Definition saveContent_finally (message : Entry) (tabId : Z) : M Frame unit :=
  let* options := gets fr_options in
  (if truthy_opt truthy_num (entry_taskId message) then
     emitF (BusinessOnSaveEnd (entry_taskId message))
   else if autoSaveDiscard options && autoClose options then
     let* replaced := gets (fun fr => replacedTabIds (fr_world fr)) in
     emitF (TabsRemove (current_tab_id replaced tabId)) ;;;
     modify (on_world (set_replacedTabIds (delete tabId)))
   else ret tt) ;;;
  let* pageData := gets fr_pageData in
  (match pageData with
   | Some pageData =>
       match pd_url pageData with
       | Some objectUrl =>
           if truthy_str objectUrl then emitF (RevokeObjectURL objectUrl) else ret tt
       | None => ret tt
       end
   | None => ret tt
   end) ;;;
  emitF (UiOnEnd tabId true).

Definition saveContent (message : Entry) (tab : option Tab) : M World unit :=
  emit (EvSaveContent message tab) ;;;
  match tab with
  | None => throw (TypeError "tab is undefined")
  | Some tab =>
      let tabId := tab_id tab in
      match config_getOptions (tab_url tab) true with
      | None => ret tt
      | Some options =>
          emit (UiOnStart tabId 1 true) ;;;
          with_locals (merge_message options message tab)
            (try_finally (saveContent_try message tab tabId)
                         (saveContent_finally message tabId))
      end
  end.

(** ** [isEnabled] (lines 126-134) *)

(** [rule.autoSaveProfile != config.DISABLED_PROFILE_NAME] *)
Definition profile_differs (profile : option string) (name : string) : bool :=
  match profile with
  | Some p => negb (String.eqb p name)
  | None => true
  end.

(** [allTabsData[tab.id] && allTabsData[tab.id].autoSave] *)
Definition tab_opt_in (allTabsData : AllTabsData) (tabId : Z) : bool :=
  match perTab allTabsData !! tabId with
  | Some data => td_autoSave data
  | None => false
  end.

(** The answer is [undefined] when no tab is given. *)
Definition isEnabled (tab : option Tab) : M World (option bool) :=
  match tab with
  | Some tab =>
      let* allTabsData := gets tabsData in
      let rule := config_getRule (tab_url tab) in
      ret (Some ((autoSaveAll allTabsData
                  || (autoSaveUnpinned allTabsData && negb (tab_pinned tab))
                  || tab_opt_in allTabsData (tab_id tab))
                 && match rule with
                    | None => true
                    | Some rule =>
                        profile_differs (autoSaveProfile rule) config_DISABLED_PROFILE_NAME
                    end))
  | None => ret None
  end.

(** ** The message and tab handlers (lines 49-105) *)

Inductive Response :=
| InitResponse (options : option Options) (autoSaveEnabled : option bool)
               (tabId : Z) (tabIndex : Z)
| EmptyResponse
| NoResponse.

(** The tab that line 61 builds from the message when the sender has none. *)
Definition tab_of_message (message : Message) (sender : Sender) : Tab :=
  {| tab_id := msg_tabId message;
     tab_index := msg_tabIndex message;
     tab_url := sender_url sender;
     tab_pinned := false;
     tab_incognito := None |}.

Definition onMessage (message : Message) (sender : Sender) : M World Response :=
  if endsWith (msg_method message) ".init" then
    match sender_tab sender with
    | None => throw (TypeError "sender.tab is undefined")
    | Some tab =>
        let options := config_getOptions (tab_url tab) true in
        let* autoSaveEnabled := isEnabled (Some tab) in
        ret (InitResponse options autoSaveEnabled (tab_id tab) (tab_index tab))
    end
  else if endsWith (msg_method message) ".save" then
    (if msg_autoSaveDiscard message || msg_autoSaveRemove message then
       let* message :=
         (match sender_tab sender with
          | Some tab =>
              modify (set_pendingMessages
                        (insert (tab_id tab) (SaveRequest (set_msg_tab message (Some tab))))) ;;;
              ret (set_msg_tab message (Some tab))
          | None =>
              let* pending := gets pendingMessages in
              if truthy_opt entry_removed (pending !! msg_tabId message)
                 && msg_autoSaveRemove message
              then
                modify (set_pendingMessages (delete (msg_tabId message))) ;;;
                saveContent (SaveRequest message) (Some (tab_of_message message sender)) ;;;
                ret message
              else ret message
          end) in
       if msg_autoSaveUnload message then
         modify (set_pendingMessages (delete (msg_tabId message))) ;;;
         saveContent (SaveRequest message) (sender_tab sender)
       else ret tt
     else
       modify (set_pendingMessages (delete (msg_tabId message))) ;;;
       saveContent (SaveRequest message) (sender_tab sender)) ;;;
    ret EmptyResponse
  else ret NoResponse.

Definition onTabUpdated (tabId : Z) : M World unit :=
  modify (set_pendingMessages (delete tabId)).

Definition onTabRemoved (tabId : Z) : M World unit :=
  let* pending := gets pendingMessages in
  match pending !! tabId with
  | Some message =>
      if entry_autoSaveRemove message then
        modify (set_pendingMessages (delete tabId)) ;;;
        saveContent message (entry_tab message)
      else ret tt
  | None =>
      modify (set_pendingMessages (insert tabId ClosedMarker))
  end.

Definition onTabDiscarded (tabId : Z) : M World unit :=
  let* pending := gets pendingMessages in
  match pending !! tabId with
  | Some message =>
      modify (set_pendingMessages (delete tabId)) ;;;
      saveContent message (entry_tab message)
  | None => ret tt
  end.

Definition onTabReplaced (addedTabId removedTabId : Z) : M World unit :=
  let* pending := gets pendingMessages in
  match pending !! removedTabId, pending !! addedTabId with
  | Some message, None =>
      modify (set_pendingMessages (insert addedTabId message)) ;;;
      modify (set_pendingMessages (delete removedTabId)) ;;;
      modify (set_replacedTabIds (insert removedTabId addedTabId))
  | _, _ => ret tt
  end.

(** ** Sequences of events *)

Inductive Input :=
| MessageReceived (message : Message) (sender : Sender)
| TabUpdated (tabId : Z)
| TabRemoved (tabId : Z)
| TabDiscarded (tabId : Z)
| TabReplaced (addedTabId removedTabId : Z).

Definition handle (i : Input) : M World unit :=
  match i with
  | MessageReceived message sender => onMessage message sender ;;; ret tt
  | TabUpdated tabId => onTabUpdated tabId
  | TabRemoved tabId => onTabRemoved tabId
  | TabDiscarded tabId => onTabDiscarded tabId
  | TabReplaced addedTabId removedTabId => onTabReplaced addedTabId removedTabId
  end.

(** The handlers are independent listeners: an exception of one rejects its
    own promise and the next event is handled in the world it left. *)
Fixpoint run (inputs : list Input) (w : World) : World :=
  match inputs with
  | [] => w
  | i :: rest => run rest (snd (handle i w))
  end.

End Autosave.

(** ** Reading the log *)

Fixpoint count_events (p : Event -> bool) (l : list Event) : nat :=
  match l with
  | [] => O
  | e :: rest => if p e then S (count_events p rest) else count_events p rest
  end.

(** The pipeline stages of [saveContent]: capture, skip-check, overlay
    injection, compression, upload, creation of the object URL, download. *)
Definition is_stage (e : Event) : bool :=
  match e with
  | GetPageData _ | TestSkipSave _ _ | IncludeScript _ | CompressionProcess _ _
  | UploadPage _ _ _ _ | CreateObjectURL _ _ | DownloadPage _ _ => true
  | _ => false
  end.

(** The stages that follow the skip-check. *)
Definition is_late_stage (e : Event) : bool :=
  match e with
  | IncludeScript _ | CompressionProcess _ _
  | UploadPage _ _ _ _ | CreateObjectURL _ _ | DownloadPage _ _ => true
  | _ => false
  end.

Definition is_saveEnded (e : Event) : bool :=
  match e with
  | UiOnEnd _ _ => true
  | _ => false
  end.

Definition is_saveContent (e : Event) : bool :=
  match e with
  | EvSaveContent _ _ => true
  | _ => false
  end.

(** An entry into [saveContent] that gets past its first statement (the tab
    is defined) with the message object [ref]: a flush of that message. *)
Definition is_flush_of (ref : nat) (e : Event) : bool :=
  match e with
  | EvSaveContent (SaveRequest m) (Some _) => Nat.eqb (msg_ref m) ref
  | _ => false
  end.

Definition flushes (ref : nat) (l : list Event) : nat := count_events (is_flush_of ref) l.

(** First step of the cleanup: the completion signal to the task that asked
    for the save, or else the closing of the tab under its current id. *)
Definition completion_signal (message : Entry) (options : Options)
    (replaced : gmap Z Z) (tabId : Z) : list Event :=
  if truthy_opt truthy_num (entry_taskId message) then
    [BusinessOnSaveEnd (entry_taskId message)]
  else if autoSaveDiscard options && autoClose options then
    [TabsRemove (current_tab_id replaced tabId)]
  else [].

(** Whether the cleanup goes through lines 206-207. *)
Definition closes_tab (message : Entry) (options : Options) : bool :=
  negb (truthy_opt truthy_num (entry_taskId message))
  && (autoSaveDiscard options && autoClose options).

(** Second step of the cleanup: the release of [pageData.url]. *)
Definition release_events (pageData : option PageData) : list Event :=
  match pageData with
  | Some pd =>
      match pd_url pd with
      | Some objectUrl => if truthy_str objectUrl then [RevokeObjectURL objectUrl] else []
      | None => []
      end
  | None => []
  end.

(** ** Reading the redirect table and a sequence of inputs *)

(** Two redirects in a row: the target of one is the source of another. *)
Definition has_chain (replaced : gmap Z Z) : Prop :=
  exists a b c, replaced !! a = Some b /\ replaced !! b = Some c.



(** ** The invariant behind "flushed at most once" *)

(** The message object [ref] is held by the registry. *)
Definition stored (pending : gmap Z Entry) (ref : nat) : Prop :=
  exists k m, pending !! k = Some (SaveRequest m) /\ msg_ref m = ref.



(** ** Concrete collaborators and data for the examples *)

Module Sample.

Definition payload : Payload :=
  {| content := "<html></html>"; url := "https://example.org/"; frames := "";
     canvases := ""; fonts := ""; stylesheets := ""; images := ""; posters := "";
     usedFonts := ""; shadowRoots := ""; imports := ""; referrer := "";
     updatedResources := ""; visitDate := "2020-01-01" |}.

Definition tab (tabId : Z) : Tab :=
  {| tab_id := tabId; tab_index := 0; tab_url := "https://example.org/";
     tab_pinned := false; tab_incognito := Some false |}.

Definition options (gdrive infobar discard close : bool) : Options :=
  {| saveToGDrive := gdrive; includeInfobar := infobar;
     autoSaveDiscard := discard; autoClose := close;
     filenameConflictAction := None; insertTextBody := false;
     createRootDirectory := false; selfExtractingArchive := true;
     insertCanonicalLink := false; insertMetaNoIndex := false; password := "";
     opt_payload := None; backgroundTab := false; autoSave := false;
     incognito := None; opt_tabId := None; opt_tabIndex := None |}.

(** A save message of the content script with the given identity, tab id
    and flags. *)
Definition message (ref : nat) (tabId : Z) (taskId : option Z)
    (discard remove unload : bool) : Message :=
  {| msg_ref := ref; msg_method := "autosave.save"; msg_tabId := tabId;
     msg_tabIndex := 0; msg_taskId := taskId;
     msg_autoSaveDiscard := discard; msg_autoSaveRemove := remove;
     msg_autoSaveUnload := unload; msg_payload := payload; msg_tab := None |}.

Definition pageData : PageData :=
  {| pd_filename := "page.zip.html"; pd_content := "<html></html>"; pd_url := None |}.

Definition answer {A : Type} (fails : bool) (stage : string) (a : A) : Outcome A :=
  if fails then Throws (Failure stage) else Returns a.

(** Collaborators that resolve every URL to [resolved], answer the
    skip-check with [skip], and fail exactly at the stages selected. *)
Definition collaborators (resolved : option Options) (rule : option Rule) (skip : bool)
    (capture_fails process_fails upload_fails download_fails : bool) : Collaborators :=
  {| config_getOptions := fun _ _ => resolved;
     config_getRule := fun _ => rule;
     config_DISABLED_PROFILE_NAME := "__Disabled_Settings__";
     getPageData := fun _ => answer capture_fails "capture" pageData;
     downloads_testSkipSave := fun _ _ =>
       Returns {| skipped := skip; ts_filenameConflictAction := Some "uniquify" |};
     infobar_includeScript := fun pd => Returns pd;
     compression_process := fun _ _ => answer process_fails "compression" "PK";
     downloads_uploadPage := fun _ _ _ _ => answer upload_fails "upload" tt;
     URL_createObjectURL := fun _ => "blob:1";
     downloads_downloadPage := fun _ _ => answer download_fails "download" tt |}.

Definition data : AllTabsData :=
  {| autoSaveAll := false; autoSaveUnpinned := false; perTab := ∅ |}.

Definition with_pending (entries : list (Z * Entry)) : World :=
  {| pendingMessages := list_to_map entries; replacedTabIds := ∅;
     tabsData := data; log := [] |}.

End Sample.

(** ** More readings of the log *)

Definition is_upload (e : Event) : bool :=
  match e with
  | UploadPage _ _ _ _ => true
  | _ => false
  end.

(** The calls of the local delivery: skip-check, object URL, download. *)
Definition is_local_delivery (e : Event) : bool :=
  match e with
  | TestSkipSave _ _ | CreateObjectURL _ _ | DownloadPage _ _ => true
  | _ => false
  end.

Definition is_tabsRemove (e : Event) : bool :=
  match e with
  | TabsRemove _ => true
  | _ => false
  end.

(** Calls to collaborators, as opposed to entries into [saveContent]. *)
Definition is_collaborator_call (e : Event) : bool := negb (is_saveContent e).

(** The tab ids that an input names: the only registry keys its handler
    reads or writes. *)
Definition input_keys (i : Input) : list Z :=
  match i with
  | MessageReceived message sender =>
      msg_tabId message ::
      match sender_tab sender with
      | Some tab => [tab_id tab]
      | None => []
      end
  | TabUpdated tabId | TabRemoved tabId | TabDiscarded tabId => [tabId]
  | TabReplaced addedTabId removedTabId => [addedTabId; removedTabId]
  end.

(** The collaborator behind the stage call [call] throws [e] for the
    arguments of that call.  The creation of the object URL and the calls
    of the cleanup are not stages that can fail. *)
Definition stage_call_throws {C : Collaborators} (call : Event) (e : Error) : Prop :=
  match call with
  | GetPageData o => getPageData o = Throws e
  | TestSkipSave f o => downloads_testSkipSave f o = Throws e
  | IncludeScript p => infobar_includeScript p = Throws e
  | CompressionProcess p po => compression_process p po = Throws e
  | UploadPage t f b o => downloads_uploadPage t f b o = Throws e
  | DownloadPage p o => downloads_downloadPage p o = Throws e
  | _ => False
  end.

(** The collaborator behind the stage call [call] returns for the arguments
    of that call. *)
Definition stage_call_returns {C : Collaborators} (call : Event) : Prop :=
  match call with
  | GetPageData o => exists a, getPageData o = Returns a
  | TestSkipSave f o => exists a, downloads_testSkipSave f o = Returns a
  | IncludeScript p => exists a, infobar_includeScript p = Returns a
  | CompressionProcess p po => exists a, compression_process p po = Returns a
  | UploadPage t f b o => exists a, downloads_uploadPage t f b o = Returns a
  | DownloadPage p o => exists a, downloads_downloadPage p o = Returns a
  | _ => True
  end.

(** ** The handlers outside the save pipeline (lines 107-146)

    [onMessageExternal], [onInit] and [refreshTabs] call collaborators that
    the save pipeline does not: these calls are recorded as notices, next to
    the world.  [tabs-data.js], [tabs.js] and the profile settings read by
    [onInit] are not part of this module; they are the fields of
    [Environment].  [tabsData_get tabId stored] is the object that
    [tabsData.get(tabId)] answers when the stored data are [stored]; whether
    it holds a record for [tabId] is up to that collaborator. *)

Inductive Notice :=
| UiRefreshTab (tab : Tab)
| BusinessSaveTabs (tabs : list Tab) (isAutoSave : bool)
| TabsSendMessage (tabId : Z) (method : string) (autoSaveEnabled : option bool)
                  (options : option Options).

Record Background := mkBackground {
  bg_world : World;
  bg_notices : list Notice
}.

Class Environment := {
  tabsData_get : Z -> AllTabsData -> AllTabsData;
  tabs_get : list Tab;
  tabs_sendMessage : Z -> option bool -> option Options -> Outcome unit;
  autoSaveLoad : Options -> bool;
  autoSaveLoadOrUnload : Options -> bool
}.

Record ExternalMessage := mkExternalMessage {
  ext_method : string;
  ext_enabled : bool
}.




(** A computation on the world, run in the background state. *)
Definition in_world {A : Type} (c : M World A) : M Background A :=
  fun bg =>
    match c (bg_world bg) with
    | (r, w) => (r, {| bg_world := w; bg_notices := bg_notices bg |})
    end.

Definition notify (n : Notice) : M Background unit :=
  modify (fun bg => {| bg_world := bg_world bg; bg_notices := bg_notices bg ++ [n] |}).


(** [tabsData.set(allTabsData)] *)
Definition set_tabsData (data : AllTabsData) (w : World) : World :=
  {| pendingMessages := pendingMessages w;
     replacedTabIds := replacedTabIds w;
     tabsData := data;
     log := log w |}.

(** [allTabsData[tabId].autoSave = enabled] *)
Definition set_autoSave (allTabsData : AllTabsData) (tabId : Z) (enabled : bool) : AllTabsData :=
  {| autoSaveAll := autoSaveAll allTabsData;
     autoSaveUnpinned := autoSaveUnpinned allTabsData;
     perTab := <[tabId := {| td_autoSave := enabled |}]> (perTab allTabsData) |}.

Section Background.

Context {C : Collaborators} {E : Environment}.

(** Lines 107-117.  The answer is that of [isEnabled] for the query and
    [undefined] otherwise. *)
Definition onMessageExternal (message : ExternalMessage) (currentTab : option Tab)
    : M Background (option bool) :=
  (if String.eqb (ext_method message) "enableAutoSave" then
     match currentTab with
     | None => throw (TypeError "currentTab is undefined")
     | Some tab =>
         let* stored := gets (fun bg => tabsData (bg_world bg)) in
         let allTabsData := tabsData_get (tab_id tab) stored in
         match perTab allTabsData !! tab_id tab with
         | None => throw (TypeError "allTabsData[currentTab.id] is undefined")
         | Some _ =>
             in_world (modify (set_tabsData
                                 (set_autoSave allTabsData (tab_id tab) (ext_enabled message)))) ;;;
             notify (UiRefreshTab tab)
         end
     end
   else ret tt) ;;;
  if String.eqb (ext_method message) "isAutoSaveEnabled" then in_world (isEnabled currentTab)
  else ret None.

(** Lines 119-124. *)
Definition onInit (tab : Tab) : M Background unit :=
  let options := config_getOptions (tab_url tab) true in
  let* autoSaveEnabled := in_world (isEnabled (Some tab)) in
  match options with
  | Some options =>
      if (autoSaveLoad options || autoSaveLoadOrUnload options)
         && truthy_opt (fun b : bool => b) autoSaveEnabled
      then notify (BusinessSaveTabs [tab] true)
      else ret tt
  | None => ret tt
  end.



End Background.

Module SampleBackground.

(** [tabsData.get(tabId)] that adds an empty record for the tab when
    [creates] is set, and answers the stored data as they are otherwise. *)
Definition get (creates : bool) (tabId : Z) (stored : AllTabsData) : AllTabsData :=
  if creates then
    match perTab stored !! tabId with
    | Some _ => stored
    | None => {| autoSaveAll := autoSaveAll stored;
                 autoSaveUnpinned := autoSaveUnpinned stored;
                 perTab := <[tabId := {| td_autoSave := false |}]> (perTab stored) |}
    end
  else stored.

(** Tabs [tabs]; [tabs.sendMessage] fails for the ids in [unreachable]. *)
Definition environment (creates : bool) (tabs : list Tab) (unreachable : list Z)
    (atLoad : bool) : Environment :=
  {| tabsData_get := get creates;
     tabs_get := tabs;
     tabs_sendMessage := fun tabId _ _ =>
       if existsb (Z.eqb tabId) unreachable
       then Throws (Failure "no receiver") else Returns tt;
     autoSaveLoad := fun _ => atLoad;
     autoSaveLoadOrUnload := fun _ => false |}.

Definition start (w : World) : Background := {| bg_world := w; bg_notices := [] |}.

End SampleBackground.

(** * Properties *)

Lemma count_events_app p l1 l2 :
  count_events p (l1 ++ l2) = (count_events p l1 + count_events p l2)%nat.
Proof.
  induction l1 as [|e l1 IH]; simpl; [reflexivity|].
  destruct (p e); rewrite IH; reflexivity.
Qed.

Lemma count_events_none p q l :
  (forall e, p e = true -> q e = false) ->
  forallb p l = true -> count_events q l = O.
Proof.
  intros Hpq. induction l as [|e l IH]; simpl; [reflexivity|].
  intros H. apply andb_prop in H as [He Hl].
  rewrite (Hpq e He). auto.
Qed.

Ltac run_monad :=
  unfold bind, gets, modify, ret, throw, call, emitF, emit, try_finally, with_locals.

Ltac split_cases :=
  repeat (cbn;
          match goal with
          | |- context [match ?x with Returns _ => _ | Throws _ => _ end] => destruct x eqn:?
          | |- context [if negb ?b then _ else _] => destruct b eqn:?
          | |- context [if ?b then _ else _] => destruct b eqn:?
          end); cbn.

Section SaveContentFacts.

Context {C : Collaborators}.

(** What the [try] block does to the frame. *)
Lemma saveContent_try_frame message tab tabId fr :
  let fr' := snd (saveContent_try message tab tabId fr) in
  pendingMessages (fr_world fr') = pendingMessages (fr_world fr)
  /\ replacedTabIds (fr_world fr') = replacedTabIds (fr_world fr)
  /\ tabsData (fr_world fr') = tabsData (fr_world fr)
  /\ autoSaveDiscard (fr_options fr') = autoSaveDiscard (fr_options fr)
  /\ autoClose (fr_options fr') = autoClose (fr_options fr).
Proof.
  unfold saveContent_try. run_monad. split_cases; repeat split; reflexivity.
Qed.

Lemma saveContent_try_log message tab tabId fr :
  let fr' := snd (saveContent_try message tab tabId fr) in
  exists stages,
    log (fr_world fr') = log (fr_world fr) ++ stages
    /\ forallb is_stage stages = true
    /\ (forall blob u, In (CreateObjectURL blob u) stages ->
          exists pd, fr_pageData fr' = Some pd /\ pd_url pd = Some u
                     /\ u = URL_createObjectURL blob).
Proof.
  unfold saveContent_try. run_monad. split_cases.
  all: rewrite <- ?app_assoc; simpl.
  all: eexists; split; [reflexivity|]; split; [reflexivity|].
  all: intros blob u Hin; simpl in Hin.
  all: repeat (destruct Hin as [Hin|Hin]; [try discriminate Hin|]); try contradiction.
  all: inversion Hin; subst; eexists; repeat split; reflexivity.
Qed.

(** What the [finally] block does: it never throws, and it appends the
    three cleanup steps in their order. *)
Lemma saveContent_finally_spec message tabId fr :
  let w := fr_world fr in
  let out := saveContent_finally message tabId fr in
  fst out = Ok tt
  /\ log (fr_world (snd out)) =
       log w ++ completion_signal message (fr_options fr) (replacedTabIds w) tabId
             ++ release_events (fr_pageData fr) ++ [UiOnEnd tabId true]
  /\ pendingMessages (fr_world (snd out)) = pendingMessages w
  /\ tabsData (fr_world (snd out)) = tabsData w
  /\ replacedTabIds (fr_world (snd out)) =
       (if closes_tab message (fr_options fr)
        then delete tabId (replacedTabIds w) else replacedTabIds w).
Proof.
  unfold saveContent_finally, completion_signal, release_events, closes_tab.
  destruct fr as [options pageData w]. run_monad. cbn.
  destruct (truthy_opt truthy_num (entry_taskId message));
    destruct (autoSaveDiscard options && autoClose options);
    destruct pageData as [[name body [u|]]|]; cbn;
    try destruct (truthy_str u); cbn;
    rewrite <- ?app_assoc; cbn; repeat split; reflexivity.
Qed.

(** The whole of [saveContent] on a tab whose options resolve. *)
Lemma saveContent_resolved message tab options w :
  config_getOptions (tab_url tab) true = Some options ->
  let w' := snd (saveContent message (Some tab) w) in
  exists stages pageData,
    log w' = log w ++ [EvSaveContent message (Some tab); UiOnStart (tab_id tab) 1 true]
                   ++ stages
                   ++ completion_signal message options (replacedTabIds w) (tab_id tab)
                   ++ release_events pageData ++ [UiOnEnd (tab_id tab) true]
    /\ forallb is_stage stages = true
    /\ (forall blob u, In (CreateObjectURL blob u) stages ->
          exists pd, pageData = Some pd /\ pd_url pd = Some u
                     /\ u = URL_createObjectURL blob)
    /\ pendingMessages w' = pendingMessages w
    /\ tabsData w' = tabsData w
    /\ replacedTabIds w' =
         (if closes_tab message options
          then delete (tab_id tab) (replacedTabIds w) else replacedTabIds w).
Proof.
  intros Hopt. unfold saveContent. rewrite Hopt. run_monad.
  cbn -[saveContent_try saveContent_finally].
  set (fr0 := {| fr_options := merge_message options message tab;
                 fr_pageData := None;
                 fr_world := record_event (UiOnStart (tab_id tab) 1 true)
                               (record_event (EvSaveContent message (Some tab)) w) |}).
  pose proof (saveContent_try_frame message tab (tab_id tab) fr0) as Hframe.
  pose proof (saveContent_try_log message tab (tab_id tab) fr0) as Hlog.
  destruct (saveContent_try message tab (tab_id tab) fr0) as [r fr1].
  cbn in Hframe, Hlog.
  destruct Hframe as (Hpm & Hrep & Htd & Hdis & Hclose).
  destruct Hlog as (stages & Hstages & Hall & Hurl).
  pose proof (saveContent_finally_spec message (tab_id tab) fr1) as Hfin.
  destruct (saveContent_finally message (tab_id tab) fr1) as [rf fr2].
  cbn in Hfin. destruct Hfin as (Hok & Hlog2 & Hpm2 & Htd2 & Hrep2).
  subst rf. cbn.
  assert (Hsig : completion_signal message (fr_options fr1) (replacedTabIds (fr_world fr1)) (tab_id tab)
                 = completion_signal message options (replacedTabIds w) (tab_id tab)).
  { unfold completion_signal. rewrite Hdis, Hclose, Hrep. reflexivity. }
  assert (Hct : closes_tab message (fr_options fr1) = closes_tab message options).
  { unfold closes_tab. rewrite Hdis, Hclose. reflexivity. }
  exists stages, (fr_pageData fr1).
  split; [|split; [exact Hall|split; [exact Hurl|split; [|split]]]].
  - rewrite Hlog2, Hstages, Hsig. cbn. rewrite <- !app_assoc. reflexivity.
  - rewrite Hpm2, Hpm. reflexivity.
  - rewrite Htd2, Htd. reflexivity.
  - rewrite Hrep2, Hct, Hrep. reflexivity.
Qed.


Lemma completion_signal_not p message options replaced tabId :
  (forall e, p e = true ->
     match e with BusinessOnSaveEnd _ | TabsRemove _ => False | _ => True end) ->
  count_events p (completion_signal message options replaced tabId) = O.
Proof.
  intros Hp. unfold completion_signal.
  destruct (truthy_opt truthy_num (entry_taskId message)); cbn.
  - destruct (p (BusinessOnSaveEnd _)) eqn:E; [destruct (Hp _ E)|reflexivity].
  - destruct (autoSaveDiscard options && autoClose options); cbn; [|reflexivity].
    destruct (p (TabsRemove _)) eqn:E; [destruct (Hp _ E)|reflexivity].
Qed.

Lemma release_events_not p pageData :
  (forall e, p e = true -> match e with RevokeObjectURL _ => False | _ => True end) ->
  count_events p (release_events pageData) = O.
Proof.
  intros Hp. unfold release_events.
  destruct pageData as [[name body [u|]]|]; cbn; try reflexivity.
  destruct (truthy_str u); cbn; [|reflexivity].
  destruct (p (RevokeObjectURL u)) eqn:E; [destruct (Hp _ E)|reflexivity].
Qed.

(** What any call of [saveContent] does to the world: it leaves the
    registry and the tabs data alone, and the log grows by the entry into
    [saveContent] followed by calls to collaborators only. *)
Lemma saveContent_effect message tab w :
  let w' := snd (saveContent message tab w) in
  pendingMessages w' = pendingMessages w
  /\ tabsData w' = tabsData w
  /\ exists calls,
       log w' = log w ++ EvSaveContent message tab :: calls
       /\ count_events is_saveContent calls = O.
Proof.
  destruct tab as [tab|].
  - destruct (config_getOptions (tab_url tab) true) as [options|] eqn:Hopt.
    + destruct (saveContent_resolved message tab options w Hopt)
        as (stages & pageData & Hlog & Hall & _ & Hpm & Htd & _).
      intros w'. split; [exact Hpm|]. split; [exact Htd|].
      eexists. split; [unfold w'; rewrite Hlog; cbn; reflexivity|].
      cbn. rewrite !count_events_app.
      rewrite (count_events_none is_stage is_saveContent stages)
        by (first [exact Hall | intros []; cbn; congruence]).
      rewrite completion_signal_not, release_events_not
        by (intros []; cbn; intros; first [discriminate | exact I]).
      reflexivity.
    + unfold saveContent. rewrite Hopt. run_monad. cbn.
      split; [reflexivity|]. split; [reflexivity|].
      exists []. split; reflexivity.
  - unfold saveContent. run_monad. cbn.
    split; [reflexivity|]. split; [reflexivity|].
    exists []. split; reflexivity.
Qed.

End SaveContentFacts.

(** C1.  On a tab whose options resolve, whatever the pipeline stages do
    (return, skip, or throw at the capture, skip-check, overlay, compression,
    upload or download), the log grows by: the start notification, the stage
    calls, then the cleanup in its order -- completion signal or closing of
    the tab, release of the object URL, "save ended".  The "save ended"
    notification is made exactly once, and an object URL that was created is
    the one released. *)
Theorem saveContent_cleanup_exactly_once
    (C : Collaborators) (message : Entry) (tab : Tab) (options : Options) (w : World) :
  config_getOptions (tab_url tab) true = Some options ->
  (forall blob, truthy_str (URL_createObjectURL blob) = true) ->
  let w' := snd (saveContent message (Some tab) w) in
  exists stages release,
    log w' = log w ++ [EvSaveContent message (Some tab); UiOnStart (tab_id tab) 1 true]
                   ++ stages
                   ++ completion_signal message options (replacedTabIds w) (tab_id tab)
                   ++ release ++ [UiOnEnd (tab_id tab) true]
    /\ forallb is_stage stages = true
    /\ (release = [] \/ exists u, release = [RevokeObjectURL u])
    /\ (forall blob u, In (CreateObjectURL blob u) stages -> release = [RevokeObjectURL u])
    /\ count_events is_saveEnded (log w') = S (count_events is_saveEnded (log w)).
Proof.
  intros Hopt Hurl w'.
  destruct (saveContent_resolved message tab options w Hopt)
    as (stages & pageData & Hlog & Hall & Hcreated & _).
  fold w' in Hlog.
  exists stages, (release_events pageData).
  split; [exact Hlog|]. split; [exact Hall|]. split; [|split].
  - unfold release_events.
    destruct pageData as [[name body [u|]]|]; cbn; auto.
    destruct (truthy_str u); eauto.
  - intros blob u Hin.
    destruct (Hcreated blob u Hin) as (pd & -> & Hpd & ->).
    unfold release_events. rewrite Hpd, Hurl. reflexivity.
  - rewrite Hlog, !count_events_app. cbn.
    rewrite (count_events_none is_stage is_saveEnded stages)
      by (first [exact Hall | intros []; cbn; congruence]).
    rewrite completion_signal_not, release_events_not
      by (intros []; cbn; intros; first [discriminate | exact I]).
    lia.
Qed.

(** The capture stage throws: the exception leaves [saveContent], and the
    cleanup has run. *)
Lemma saveContent_cleanup_exactly_once_witness :
  let C := Sample.collaborators (Some (Sample.options false true true true)) None
             false true false false false in
  let w := Sample.with_pending [] in
  let message := SaveRequest (Sample.message 0 5 None true true false) in
  let w' := snd (saveContent message (Some (Sample.tab 5)) w) in
  exists stages release,
    log w' = log w ++ [EvSaveContent message (Some (Sample.tab 5)); UiOnStart 5 1 true]
                   ++ stages
                   ++ completion_signal message (Sample.options false true true true)
                        (replacedTabIds w) 5
                   ++ release ++ [UiOnEnd 5 true]
    /\ forallb is_stage stages = true
    /\ (release = [] \/ exists u, release = [RevokeObjectURL u])
    /\ (forall blob u, In (CreateObjectURL blob u) stages -> release = [RevokeObjectURL u])
    /\ count_events is_saveEnded (log w') = S (count_events is_saveEnded (log w)).
Proof.
  intros C w message.
  apply (saveContent_cleanup_exactly_once C message (Sample.tab 5)
           (Sample.options false true true true) w).
  - reflexivity.
  - intros blob. reflexivity.
Defined.

(** C7.  The destination is not Google Drive and the skip-check answers
    [skipped: true]: [saveContent] returns normally, the only stage calls
    are the capture and the skip-check, none of the overlay injection,
    compression, upload, object-URL creation or download is made, and the
    cleanup runs, ending with the one "save ended" notification. *)
Theorem saveContent_skipped
    (C : Collaborators) (message : Entry) (tab : Tab) (options : Options) (w : World)
    (pageData : PageData) (testSkip : TestSkip) :
  config_getOptions (tab_url tab) true = Some options ->
  saveToGDrive options = false ->
  getPageData (merge_message options message tab) = Returns pageData ->
  downloads_testSkipSave (pd_filename pageData) (merge_message options message tab)
    = Returns testSkip ->
  skipped testSkip = true ->
  let out := saveContent message (Some tab) w in
  fst out = Ok tt
  /\ log (snd out) =
       log w ++ [EvSaveContent message (Some tab); UiOnStart (tab_id tab) 1 true;
                 GetPageData (merge_message options message tab);
                 TestSkipSave (pd_filename pageData) (merge_message options message tab)]
             ++ completion_signal message options (replacedTabIds w) (tab_id tab)
             ++ release_events (Some pageData) ++ [UiOnEnd (tab_id tab) true]
  /\ count_events is_late_stage (log (snd out)) = count_events is_late_stage (log w)
  /\ count_events is_saveEnded (log (snd out)) = S (count_events is_saveEnded (log w)).
Proof.
  intros Hopt Hdrive Hcapture Hskip Hskipped out.
  assert (Hrun : fst out = Ok tt
    /\ log (snd out) =
       log w ++ [EvSaveContent message (Some tab); UiOnStart (tab_id tab) 1 true;
                 GetPageData (merge_message options message tab);
                 TestSkipSave (pd_filename pageData) (merge_message options message tab)]
             ++ completion_signal message options (replacedTabIds w) (tab_id tab)
             ++ release_events (Some pageData) ++ [UiOnEnd (tab_id tab) true]).
  { unfold out, saveContent. rewrite Hopt.
    unfold saveContent_try, saveContent_finally, completion_signal, release_events.
    run_monad. cbn. rewrite Hcapture. cbn. rewrite Hdrive. cbn.
    rewrite Hskip. cbn. rewrite Hskipped. cbn.
    destruct (truthy_opt truthy_num (entry_taskId message));
      destruct (autoSaveDiscard options && autoClose options);
      destruct pageData as [name body [u|]]; cbn;
      try destruct (truthy_str u); cbn;
      rewrite <- ?app_assoc; cbn; split; reflexivity. }
  destruct Hrun as [Hres Hlog].
  split; [exact Hres|]. split; [exact Hlog|].
  rewrite Hlog, !count_events_app.
  rewrite !completion_signal_not, !release_events_not
    by (intros []; cbn; intros; first [discriminate | exact I]).
  cbn. split; lia.
Qed.

Lemma saveContent_skipped_witness :
  let C := Sample.collaborators (Some (Sample.options false true true true)) None
             true false false false false in
  let w := Sample.with_pending [] in
  let message := SaveRequest (Sample.message 0 5 None true true false) in
  let out := saveContent message (Some (Sample.tab 5)) w in
  fst out = Ok tt
  /\ log (snd out) =
       [EvSaveContent message (Some (Sample.tab 5)); UiOnStart 5 1 true;
        GetPageData (merge_message (Sample.options false true true true) message (Sample.tab 5));
        TestSkipSave "page.zip.html"
          (merge_message (Sample.options false true true true) message (Sample.tab 5));
        TabsRemove 5; UiOnEnd 5 true]
  /\ count_events is_late_stage (log (snd out)) = O
  /\ count_events is_saveEnded (log (snd out)) = 1%nat.
Proof.
  intros C w message.
  apply (saveContent_skipped C message (Sample.tab 5) (Sample.options false true true true)
           w Sample.pageData
           {| skipped := true; ts_filenameConflictAction := Some "uniquify" |});
    reflexivity.
Defined.

(** ** Eligibility *)

(** C8.  For a tab that is present, [isEnabled] answers [true] exactly when
    one of the three flags selects the tab (save all, save all unpinned and
    the tab is not pinned, the tab's own opt-in) and no rule for the tab's
    URL carries the disabled profile; a URL without a rule puts up no
    veto.  The world is returned as it was given. *)
Theorem isEnabled_spec (C : Collaborators) (tab : Tab) (w : World) :
  exists b : bool,
    isEnabled (Some tab) w = (Ok (Some b), w)
    /\ (b = true <->
        (autoSaveAll (tabsData w) = true
         \/ (autoSaveUnpinned (tabsData w) = true /\ tab_pinned tab = false)
         \/ (exists data, perTab (tabsData w) !! tab_id tab = Some data
                          /\ td_autoSave data = true))
        /\ ~ (exists rule, config_getRule (tab_url tab) = Some rule
                           /\ autoSaveProfile rule = Some config_DISABLED_PROFILE_NAME)).
Proof.
  eexists. split; [reflexivity|].
  unfold tab_opt_in, profile_differs.
  rewrite andb_true_iff, !orb_true_iff, andb_true_iff, negb_true_iff.
  split.
  - intros [Hflags Hrule]. split.
    + destruct Hflags as [[Hall|Hunpinned]|Hopt]; [auto|auto|].
      right; right.
      destruct (perTab (tabsData w) !! tab_id tab) as [data|]; [eauto|discriminate].
    + intros (rule & Hr & Hp). rewrite Hr, Hp in Hrule.
      rewrite String.eqb_refl in Hrule. discriminate.
  - intros [Hflags Hrule]. split.
    + destruct Hflags as [Hall|[Hunpinned|(data & Hd & Ha)]]; [auto|auto|].
      right. rewrite Hd. exact Ha.
    + destruct (config_getRule (tab_url tab)) as [[[p|]]|]; cbn; try reflexivity.
      destruct (String.eqb p config_DISABLED_PROFILE_NAME) eqn:E; [|reflexivity].
      apply String.eqb_eq in E. subst p.
      exfalso. apply Hrule. eexists. split; reflexivity.
Qed.

(** With only "save all unpinned" set, a pinned tab is not eligible and an
    unpinned one is; the disabled profile wins over "save all". *)
Example isEnabled_pinned_and_disabled :
  let unpinned_only := {| autoSaveAll := false; autoSaveUnpinned := true; perTab := ∅ |} in
  let all := {| autoSaveAll := true; autoSaveUnpinned := false; perTab := ∅ |} in
  let no_rule := Sample.collaborators None None false false false false false in
  let disabled := Sample.collaborators None
                    (Some {| autoSaveProfile := Some "__Disabled_Settings__" |})
                    false false false false false in
  let pinned := {| tab_id := 1; tab_index := 0; tab_url := ""; tab_pinned := true;
                   tab_incognito := None |} in
  fst (@isEnabled no_rule (Some pinned) (initial unpinned_only)) = Ok (Some false)
  /\ fst (@isEnabled no_rule (Some (Sample.tab 1)) (initial unpinned_only)) = Ok (Some true)
  /\ fst (@isEnabled disabled (Some (Sample.tab 1)) (initial all)) = Ok (Some false)
  /\ fst (@isEnabled no_rule None (initial all)) = Ok None.
Proof. repeat split; reflexivity. Qed.

(** ** The tab handlers *)

Ltac enter_saveContent :=
  match goal with
  | |- context [saveContent ?m ?t ?w] =>
      let r := fresh "r" in
      let w' := fresh "w'" in
      let Hpm := fresh "Hpm" in
      let Htd := fresh "Htd" in
      let calls := fresh "calls" in
      let Hlog := fresh "Hlog" in
      let Hcalls := fresh "Hcalls" in
      destruct (saveContent_effect m t w) as (Hpm & Htd & calls & Hlog & Hcalls);
      destruct (saveContent m t w) as [r w'];
      cbn [fst snd] in Hpm, Htd, Hlog
  end.

(** C5.  [onTabRemoved] by the state of the tab id.  Nothing stored: the
    closed marker is recorded and nothing is saved.  A message with
    [autoSaveRemove]: the entry is deleted and [saveContent] is entered
    exactly once, with the stored message and its tab.  A message without
    [autoSaveRemove] (and likewise the marker): the world is left as it
    was, so nothing is saved. *)
Theorem onTabRemoved_by_state (C : Collaborators) (tabId : Z) (w : World) :
  let out := onTabRemoved tabId w in
  match pendingMessages w !! tabId with
  | None =>
      out = (Ok tt, set_pendingMessages (insert tabId ClosedMarker) w)
      /\ pendingMessages (snd out) !! tabId = Some ClosedMarker
      /\ log (snd out) = log w
  | Some (SaveRequest m) =>
      if msg_autoSaveRemove m then
        pendingMessages (snd out) = delete tabId (pendingMessages w)
        /\ pendingMessages (snd out) !! tabId = None
        /\ (exists calls,
              log (snd out) = log w ++ EvSaveContent (SaveRequest m) (msg_tab m) :: calls
              /\ count_events is_saveContent calls = O)
        /\ count_events is_saveContent (log (snd out))
           = S (count_events is_saveContent (log w))
      else out = (Ok tt, w)
  | Some ClosedMarker => out = (Ok tt, w)
  end.
Proof.
  unfold onTabRemoved. run_monad. cbn -[saveContent].
  destruct (pendingMessages w !! tabId) as [[|m]|] eqn:Hget; cbn -[saveContent].
  - reflexivity.
  - destruct (msg_autoSaveRemove m); [|reflexivity].
    enter_saveContent. cbn [snd].
    rewrite Hpm. cbn. split; [reflexivity|].
    split; [apply lookup_delete_eq|].
    split; [exists calls; split; [exact Hlog|exact Hcalls]|].
    rewrite Hlog, count_events_app. cbn. rewrite Hcalls. lia.
  - split; [reflexivity|]. cbn. split; [apply lookup_insert_eq|reflexivity].
Qed.

(** [onTabDiscarded] by the state of the tab id: nothing stored, nothing
    done; otherwise whatever is stored -- the marker as well -- is deleted
    and handed to [saveContent] together with its [tab] property. *)
Lemma onTabDiscarded_by_state (C : Collaborators) (tabId : Z) (w : World) :
  let out := onTabDiscarded tabId w in
  match pendingMessages w !! tabId with
  | None => out = (Ok tt, w)
  | Some e =>
      pendingMessages (snd out) = delete tabId (pendingMessages w)
      /\ pendingMessages (snd out) !! tabId = None
      /\ (exists calls,
            log (snd out) = log w ++ EvSaveContent e (entry_tab e) :: calls
            /\ count_events is_saveContent calls = O)
      /\ count_events is_saveContent (log (snd out))
         = S (count_events is_saveContent (log w))
  end.
Proof.
  unfold onTabDiscarded. run_monad. cbn -[saveContent].
  destruct (pendingMessages w !! tabId) as [e|] eqn:Hget; cbn -[saveContent];
    [|reflexivity].
  enter_saveContent. cbn [snd].
  rewrite Hpm. cbn. split; [reflexivity|].
  split; [apply lookup_delete_eq|].
  split; [exists calls; split; [exact Hlog|exact Hcalls]|].
  rewrite Hlog, count_events_app. cbn. rewrite Hcalls. lia.
Qed.

(** On the closed marker the call of [saveContent] gets an undefined tab and
    throws at its first statement. *)
Lemma onTabDiscarded_marker (C : Collaborators) (tabId : Z) (w : World) :
  pendingMessages w !! tabId = Some ClosedMarker ->
  onTabDiscarded tabId w =
    (Thrown (TypeError "tab is undefined"),
     record_event (EvSaveContent ClosedMarker None)
       (set_pendingMessages (delete tabId) w)).
Proof.
  intros Hget. unfold onTabDiscarded, saveContent. run_monad. cbn.
  rewrite Hget. reflexivity.
Qed.

(** C2, the closed-marker state.  Tab 5 was removed before any save request
    arrived, so the registry holds the marker for it.  [onTabDiscarded 5]
    is not a no-op: the marker is deleted, [saveContent] is entered with the
    marker and an undefined tab, and the handler ends with a [TypeError]. *)
Theorem onTabDiscarded_closed_marker_not_noop :
  let C := Sample.collaborators (Some (Sample.options false false false false)) None
             false false false false false in
  let w := snd (onTabRemoved 5 (initial Sample.data)) in
  let out := onTabDiscarded 5 w in
  pendingMessages w !! 5 = Some ClosedMarker
  /\ fst out = Thrown (TypeError "tab is undefined")
  /\ pendingMessages (snd out) !! 5 = None
  /\ log (snd out) = [EvSaveContent ClosedMarker None]
  /\ snd out <> w.
Proof.
  intros C w out.
  assert (Hw : pendingMessages w !! 5 = Some ClosedMarker) by reflexivity.
  unfold out. rewrite (onTabDiscarded_marker C 5 w Hw). cbn [fst snd].
  split; [exact Hw|]. split; [reflexivity|].
  split; [apply lookup_delete_eq|]. split; [reflexivity|].
  intros Heq. apply (f_equal log) in Heq. discriminate Heq.
Qed.

(** ** The save request *)

Lemma endsWith_save_not_init (s : string) :
  endsWith s ".save" = true -> endsWith s ".init" = false.
Proof.
  unfold endsWith. cbn [String.length].
  destruct (Nat.leb 5 (String.length s)); cbn [andb]; [|reflexivity].
  intros H. apply String.eqb_eq in H. rewrite H. reflexivity.
Qed.

(** C9.  A save request whose only flag is [autoSaveDiscard], from a sender
    without a tab: [onMessage] answers [{}] and returns the world as it was
    given -- no registry entry changes for any id and nothing is logged, so
    [saveContent] is not entered.  (The closed marker plays no part: line 59
    also asks for [autoSaveRemove].) *)
Theorem onMessage_discard_only_dropped
    (C : Collaborators) (message : Message) (sender : Sender) (w : World) :
  endsWith (msg_method message) ".save" = true ->
  msg_autoSaveDiscard message = true ->
  msg_autoSaveRemove message = false ->
  msg_autoSaveUnload message = false ->
  sender_tab sender = None ->
  onMessage message sender w = (Ok EmptyResponse, w).
Proof.
  intros Hsave Hdiscard Hremove Hunload Htab.
  unfold onMessage.
  rewrite (endsWith_save_not_init _ Hsave), Hsave, Hdiscard, Hremove, Htab.
  run_monad. cbn. rewrite andb_false_r, Hunload. reflexivity.
Qed.

Lemma onMessage_discard_only_dropped_witness :
  let C := Sample.collaborators (Some (Sample.options false false true true)) None
             false false false false false in
  let w := Sample.with_pending [(5, ClosedMarker)] in
  onMessage (Sample.message 0 5 None true false false)
            {| sender_tab := None; sender_url := "https://example.org/" |} w
  = (Ok EmptyResponse, w).
Proof.
  intros C w.
  apply (onMessage_discard_only_dropped C); reflexivity.
Defined.

(** The handlers as equations, one per branch. *)
Section HandlerEquations.

Context {C : Collaborators}.

Lemma onTabRemoved_flush tabId e w :
  pendingMessages w !! tabId = Some e ->
  entry_autoSaveRemove e = true ->
  onTabRemoved tabId w
  = saveContent e (entry_tab e) (set_pendingMessages (delete tabId) w).
Proof.
  intros Hget Hremove. unfold onTabRemoved. run_monad. cbn -[saveContent].
  rewrite Hget, Hremove. reflexivity.
Qed.

Lemma onTabDiscarded_flush tabId e w :
  pendingMessages w !! tabId = Some e ->
  onTabDiscarded tabId w
  = saveContent e (entry_tab e) (set_pendingMessages (delete tabId) w).
Proof.
  intros Hget. unfold onTabDiscarded. run_monad. cbn -[saveContent].
  rewrite Hget. reflexivity.
Qed.

Lemma onTabReplaced_move added removed e w :
  pendingMessages w !! removed = Some e ->
  pendingMessages w !! added = None ->
  onTabReplaced added removed w
  = (Ok tt,
     set_replacedTabIds (insert removed added)
       (set_pendingMessages (delete removed)
          (set_pendingMessages (insert added e) w))).
Proof.
  intros Hremoved Hadded. unfold onTabReplaced. run_monad. cbn.
  rewrite Hremoved, Hadded. reflexivity.
Qed.

Lemma onTabReplaced_noop added removed w :
  is_Some (pendingMessages w !! added) \/ pendingMessages w !! removed = None ->
  onTabReplaced added removed w = (Ok tt, w).
Proof.
  intros Hguard. unfold onTabReplaced. run_monad. cbn.
  destruct (pendingMessages w !! removed) as [e|];
    destruct (pendingMessages w !! added) as [e'|]; try reflexivity.
  destruct Hguard as [[x Hx]|Hx]; discriminate.
Qed.

(** A request with [autoSaveDiscard] or [autoSaveRemove], without
    [autoSaveUnload], from a sender with a tab: lines 57-58 only. *)
Lemma onMessage_store message sender tab w :
  endsWith (msg_method message) ".save" = true ->
  msg_autoSaveDiscard message || msg_autoSaveRemove message = true ->
  msg_autoSaveUnload message = false ->
  sender_tab sender = Some tab ->
  onMessage message sender w
  = (Ok EmptyResponse,
     set_pendingMessages
       (insert (tab_id tab) (SaveRequest (set_msg_tab message (Some tab)))) w).
Proof.
  intros Hsave Hflags Hunload Htab. unfold onMessage.
  rewrite (endsWith_save_not_init _ Hsave), Hsave, Hflags, Htab.
  run_monad. cbn. rewrite Hunload. reflexivity.
Qed.

(** What [saveContent] does to the redirect table. *)
Lemma saveContent_replacedTabIds message tab w :
  replacedTabIds (snd (saveContent message (Some tab) w)) =
    match config_getOptions (tab_url tab) true with
    | Some options =>
        if closes_tab message options
        then delete (tab_id tab) (replacedTabIds w) else replacedTabIds w
    | None => replacedTabIds w
    end.
Proof.
  destruct (config_getOptions (tab_url tab) true) as [options|] eqn:Hopt.
  - destruct (saveContent_resolved message tab options w Hopt)
      as (stages & pageData & _ & _ & _ & _ & _ & Hrep).
    exact Hrep.
  - unfold saveContent. rewrite Hopt. reflexivity.
Qed.

End HandlerEquations.

(** C3, as stated.  The request carries [autoSaveRemove] only, its sender has
    no tab and the registry is empty: nothing is stored under the tab id,
    and the later [onTabRemoved] finds no message -- it records the closed
    marker and [saveContent] is never entered. *)
Lemma onMessage_without_tab_not_stored :
  let C := Sample.collaborators (Some (Sample.options false false false false)) None
             false false false false false in
  let request := Sample.message 0 5 None false true false in
  let sender := {| sender_tab := None; sender_url := "https://example.org/" |} in
  let w1 := snd (onMessage request sender (initial Sample.data)) in
  let w2 := snd (onTabRemoved 5 w1) in
  ~ (exists stored, pendingMessages w1 !! 5 = Some (SaveRequest stored))
  /\ pendingMessages w2 !! 5 = Some ClosedMarker
  /\ count_events is_saveContent (log w2) = O.
Proof.
  intros C request sender w1 w2.
  split; [|split; reflexivity].
  intros [stored Hstored]. discriminate Hstored.
Qed.

(** C3, amended.  A request with [autoSaveRemove] and without
    [autoSaveUnload] whose sender has a tab is stored under that tab's id,
    with the tab attached and the payload untouched, and nothing is saved
    yet.  [onTabRemoved] for that id then deletes the entry and enters
    [saveContent] exactly once, with the stored message and the stored
    tab.  When the sender has no tab and [message.tabId] holds no entry, the
    request is answered and dropped: the world is left as it was, and
    [onTabRemoved] for that id then only records the closed marker, without
    any save. *)
Theorem onMessage_remove_stored_then_flushed
    (C : Collaborators) (message : Message) (sender : Sender) (w : World) :
  endsWith (msg_method message) ".save" = true ->
  msg_autoSaveRemove message = true ->
  msg_autoSaveUnload message = false ->
  match sender_tab sender with
  | Some tab =>
      let stored := set_msg_tab message (Some tab) in
      let out1 := onMessage message sender w in
      let out2 := onTabRemoved (tab_id tab) (snd out1) in
      fst out1 = Ok EmptyResponse
      /\ pendingMessages (snd out1) = <[tab_id tab := SaveRequest stored]> (pendingMessages w)
      /\ log (snd out1) = log w
      /\ msg_payload stored = msg_payload message
      /\ pendingMessages (snd out2) !! tab_id tab = None
      /\ (exists calls,
            log (snd out2) = log w ++ EvSaveContent (SaveRequest stored) (Some tab) :: calls
            /\ count_events is_saveContent calls = O)
  | None =>
      pendingMessages w !! msg_tabId message = None ->
      let out2 := onTabRemoved (msg_tabId message) w in
      onMessage message sender w = (Ok EmptyResponse, w)
      /\ fst out2 = Ok tt
      /\ pendingMessages (snd out2) = <[msg_tabId message := ClosedMarker]> (pendingMessages w)
      /\ pendingMessages (snd out2) !! msg_tabId message = Some ClosedMarker
      /\ replacedTabIds (snd out2) = replacedTabIds w
      /\ log (snd out2) = log w
  end.
Proof.
  intros Hsave Hremove Hunload.
  assert (Hflags : msg_autoSaveDiscard message || msg_autoSaveRemove message = true)
    by (rewrite Hremove; apply orb_true_r).
  destruct (sender_tab sender) as [tab|] eqn:Htab.
  - intros stored out1 out2. unfold out2, out1.
    rewrite (onMessage_store message sender tab w Hsave Hflags Hunload Htab).
    cbn [fst snd]. fold stored.
    set (w1 := set_pendingMessages (insert (tab_id tab) (SaveRequest stored)) w).
    assert (Hget : pendingMessages w1 !! tab_id tab = Some (SaveRequest stored))
      by apply lookup_insert_eq.
    rewrite (onTabRemoved_flush (tab_id tab) (SaveRequest stored) w1 Hget Hremove).
    destruct (saveContent_effect (SaveRequest stored) (entry_tab (SaveRequest stored))
                (set_pendingMessages (delete (tab_id tab)) w1))
      as (Hpm & _ & calls & Hlog & Hcalls).
    repeat (split; [reflexivity|]).
    split.
    + rewrite Hpm. apply lookup_delete_eq.
    + exists calls. split; [exact Hlog|exact Hcalls].
  - intros Hnone out2. split.
    + unfold onMessage.
      rewrite (endsWith_save_not_init _ Hsave), Hsave, Hflags, Htab.
      run_monad. cbn. rewrite Hnone. cbn. rewrite Hunload. reflexivity.
    + unfold out2, onTabRemoved. run_monad. cbn. rewrite Hnone. cbn.
      repeat (split; [reflexivity|]).
      split; [apply lookup_insert_eq|split; reflexivity].
Qed.

Lemma onMessage_remove_stored_then_flushed_witness :
  let C := Sample.collaborators (Some (Sample.options false false false false)) None
             false false false false false in
  let request := Sample.message 0 5 None false true false in
  let sender := {| sender_tab := Some (Sample.tab 5); sender_url := "https://example.org/" |} in
  let nobody := {| sender_tab := None; sender_url := "https://example.org/" |} in
  let w := initial Sample.data in
  let stored := set_msg_tab request (Some (Sample.tab 5)) in
  let out1 := onMessage request sender w in
  let out2 := onTabRemoved 5 (snd out1) in
  let w' := Sample.with_pending [(9, ClosedMarker)] in
  let out2' := onTabRemoved 5 w' in
  (fst out1 = Ok EmptyResponse
   /\ pendingMessages (snd out1) = <[5 := SaveRequest stored]> (pendingMessages w)
   /\ log (snd out1) = log w
   /\ msg_payload stored = msg_payload request
   /\ pendingMessages (snd out2) !! 5 = None
   /\ (exists calls,
         log (snd out2) = log w ++ EvSaveContent (SaveRequest stored) (Some (Sample.tab 5)) :: calls
         /\ count_events is_saveContent calls = O))
  /\ (onMessage request nobody w' = (Ok EmptyResponse, w')
      /\ fst out2' = Ok tt
      /\ pendingMessages (snd out2') = <[5 := ClosedMarker]> (pendingMessages w')
      /\ pendingMessages (snd out2') !! 5 = Some ClosedMarker
      /\ replacedTabIds (snd out2') = replacedTabIds w'
      /\ log (snd out2') = log w').
Proof.
  intros C request sender nobody w.
  split.
  - apply (onMessage_remove_stored_then_flushed C request sender w); reflexivity.
  - apply (onMessage_remove_stored_then_flushed C request nobody
             (Sample.with_pending [(9, ClosedMarker)])); reflexivity.
Defined.

(** ** Tab replacement *)

(** C10, as stated.  A request is stored for tab 1, tab 1 is replaced by
    tab 2 and tab 2 by tab 3.  Before the second replacement the redirect
    table holds the single redirect 1 -> 2; after it, it holds 1 -> 2 and
    2 -> 3: a chain has been created. *)
Lemma onTabReplaced_creates_chain :
  let C := Sample.collaborators (Some (Sample.options false false false false)) None
             false false false false false in
  let request := Sample.message 0 1 None true false false in
  let sender := {| sender_tab := Some (Sample.tab 1); sender_url := "https://example.org/" |} in
  let w1 := run [MessageReceived request sender; TabReplaced 2 1] (initial Sample.data) in
  let w2 := snd (onTabReplaced 3 2 w1) in
  ~ has_chain (replacedTabIds w1)
  /\ has_chain (replacedTabIds w2)
  /\ replacedTabIds w2 !! 1 = Some 2
  /\ replacedTabIds w2 !! 2 = Some 3.
Proof.
  intros C request sender w1 w2.
  split; [|split; [|split; reflexivity]].
  - intros (a & b & c & Hab & Hbc).
    change (replacedTabIds w1) with (<[1 := 2]> (∅ : gmap Z Z)) in Hab, Hbc.
    apply lookup_insert_Some in Hab as [[<- <-]|[_ Hab]];
      [|rewrite lookup_empty in Hab; discriminate].
    rewrite lookup_insert_ne, lookup_empty in Hbc by lia. discriminate.
  - exists 1, 2, 3. split; reflexivity.
Qed.

(** C10, amended.  [onTabReplaced] never throws.  When the added id already
    holds an entry, or the removed id holds none, the world is returned as
    it was given: registry, redirect table and log.  An entry held by the
    added id is therefore never overwritten.  Otherwise the entry moves from
    the removed id to the added id and the redirect removed -> added is
    recorded, whether or not the removed id is itself the target of an
    earlier redirect. *)
Theorem onTabReplaced_guard (C : Collaborators) (added removed : Z) (w : World) :
  let out := onTabReplaced added removed w in
  fst out = Ok tt
  /\ (is_Some (pendingMessages w !! added) \/ pendingMessages w !! removed = None ->
      snd out = w)
  /\ (forall e, pendingMessages w !! added = Some e ->
        pendingMessages (snd out) !! added = Some e)
  /\ (forall e, pendingMessages w !! removed = Some e ->
        pendingMessages w !! added = None ->
        pendingMessages (snd out) = delete removed (<[added := e]> (pendingMessages w))
        /\ replacedTabIds (snd out) = <[removed := added]> (replacedTabIds w)
        /\ log (snd out) = log w).
Proof.
  intros out. unfold out.
  split; [|split; [|split]].
  - unfold onTabReplaced. run_monad. cbn.
    destruct (pendingMessages w !! removed) as [e|];
      destruct (pendingMessages w !! added) as [e'|]; reflexivity.
  - intros Hguard. rewrite (onTabReplaced_noop added removed w Hguard). reflexivity.
  - intros e He.
    rewrite (onTabReplaced_noop added removed w) by (left; eauto). exact He.
  - intros e Hremoved Hadded.
    rewrite (onTabReplaced_move added removed e w Hremoved Hadded).
    repeat split; reflexivity.
Qed.

Lemma onTabReplaced_guard_witness :
  let C := Sample.collaborators None None false false false false false in
  let kept := SaveRequest (Sample.message 0 2 None true false false) in
  let moved := SaveRequest (Sample.message 1 1 None true false false) in
  let w := Sample.with_pending [(1, moved); (2, kept)] in
  let w' := Sample.with_pending [(1, moved)] in
  snd (onTabReplaced 2 1 w) = w
  /\ pendingMessages (snd (onTabReplaced 2 1 w)) !! 2 = Some kept
  /\ (pendingMessages (snd (onTabReplaced 2 1 w')) = delete 1 (<[2 := moved]> (pendingMessages w'))
      /\ replacedTabIds (snd (onTabReplaced 2 1 w')) = <[1 := 2]> (replacedTabIds w')
      /\ log (snd (onTabReplaced 2 1 w')) = log w').
Proof.
  intros C kept moved w w'.
  split; [|split].
  - apply (proj1 (proj2 (onTabReplaced_guard C 2 1 w))). left. eexists. reflexivity.
  - apply (proj1 (proj2 (proj2 (onTabReplaced_guard C 2 1 w)))). reflexivity.
  - apply (proj2 (proj2 (proj2 (onTabReplaced_guard C 2 1 w')))); reflexivity.
Defined.

(** C4, as stated.  A request with [autoSaveRemove] is stored for tab 1,
    tab 1 is replaced by tab 2 and tab 2 is removed.  The options of the
    page have [autoSaveDiscard] without [autoClose], so the cleanup does not
    go through lines 206-207: the stored message has been flushed, both
    registry entries are gone, and the redirect 1 -> 2 is still in the
    table. *)
Lemma redirect_left_after_flush :
  let C := Sample.collaborators (Some (Sample.options false false true false)) None
             false false false false false in
  let request := Sample.message 0 1 None true true false in
  let sender := {| sender_tab := Some (Sample.tab 1); sender_url := "https://example.org/" |} in
  let w := run [MessageReceived request sender; TabReplaced 2 1; TabRemoved 2] (initial Sample.data) in
  flushes 0 (log w) = 1%nat
  /\ pendingMessages w !! 1 = None
  /\ pendingMessages w !! 2 = None
  /\ ~ (replacedTabIds w !! 1 = None)
  /\ replacedTabIds w !! 1 = Some 2.
Proof.
  intros C request sender w.
  assert (Hrep : replacedTabIds w !! 1 = Some 2) by reflexivity.
  repeat split; try reflexivity.
  rewrite Hrep. discriminate.
Qed.

(** C4, amended.  The message [m] was stored under [old] by [onMessage]
    (its tab is the tab of id [old]) and carries [autoSaveRemove]; [new]
    holds nothing.  After [onTabReplaced new old] and [onTabRemoved new],
    whatever the other flags of [m]: [saveContent] has been entered once,
    with [m] and its stored tab; neither [old] nor [new] holds a registry
    entry; and the redirect [old -> new] has been deleted exactly when the
    options of the tab's URL resolve and the cleanup closes the tab (no
    truthy [taskId], [autoSaveDiscard] and [autoClose] set in the options).
    In every other case the redirect is still in the table. *)
Theorem redirect_then_removed
    (C : Collaborators) (old new : Z) (m : Message) (tab : Tab) (w : World) :
  pendingMessages w !! old = Some (SaveRequest m) ->
  msg_autoSaveRemove m = true ->
  msg_tab m = Some tab ->
  tab_id tab = old ->
  pendingMessages w !! new = None ->
  let w1 := snd (onTabReplaced new old w) in
  let w2 := snd (onTabRemoved new w1) in
  (exists calls,
     log w2 = log w ++ EvSaveContent (SaveRequest m) (Some tab) :: calls
     /\ count_events is_saveContent calls = O)
  /\ pendingMessages w2 !! old = None
  /\ pendingMessages w2 !! new = None
  /\ replacedTabIds w2 !! old =
       match config_getOptions (tab_url tab) true with
       | Some options => if closes_tab (SaveRequest m) options then None else Some new
       | None => Some new
       end.
Proof.
  intros Hold Hremove Htab Hid Hnew w1 w2.
  assert (Hne : old <> new) by (intros ->; rewrite Hold in Hnew; discriminate).
  unfold w2, w1.
  rewrite (onTabReplaced_move new old (SaveRequest m) w Hold Hnew). cbn [snd].
  set (w1' := set_replacedTabIds _ _).
  assert (Hget : pendingMessages w1' !! new = Some (SaveRequest m)).
  { cbn. rewrite lookup_delete_ne by exact Hne. apply lookup_insert_eq. }
  rewrite (onTabRemoved_flush new (SaveRequest m) w1' Hget Hremove).
  cbn [entry_tab]. rewrite Htab.
  set (w1'' := set_pendingMessages (delete new) w1').
  destruct (saveContent_effect (SaveRequest m) (Some tab) w1'')
    as (Hpm & _ & calls & Hlog & Hcalls).
  pose proof (saveContent_replacedTabIds (SaveRequest m) tab w1'') as Hrep.
  split; [exists calls; split; [exact Hlog|exact Hcalls]|].
  rewrite Hpm, Hrep. cbn.
  split; [|split].
  - rewrite lookup_delete_ne by (intros E; apply Hne; symmetry; exact E).
    apply lookup_delete_eq.
  - apply lookup_delete_eq.
  - rewrite Hid.
    destruct (config_getOptions (tab_url tab) true) as [options|];
      [destruct (closes_tab (SaveRequest m) options)|].
    + apply lookup_delete_eq.
    + apply lookup_insert_eq.
    + apply lookup_insert_eq.
Qed.

Lemma redirect_then_removed_witness :
  let C := Sample.collaborators (Some (Sample.options false false true true)) None
             false false false false false in
  let m := set_msg_tab (Sample.message 0 1 None true true false) (Some (Sample.tab 1)) in
  let w := Sample.with_pending [(1, SaveRequest m)] in
  let w1 := snd (onTabReplaced 2 1 w) in
  let w2 := snd (onTabRemoved 2 w1) in
  (exists calls,
     log w2 = log w ++ EvSaveContent (SaveRequest m) (Some (Sample.tab 1)) :: calls
     /\ count_events is_saveContent calls = O)
  /\ pendingMessages w2 !! 1 = None
  /\ pendingMessages w2 !! 2 = None
  /\ replacedTabIds w2 !! 1 = None.
Proof.
  intros C m w.
  apply (redirect_then_removed C 1 2 m (Sample.tab 1) w); reflexivity.
Defined.

(** ** At most one flush per message *)


Section Registry.

Implicit Types pending : gmap Z Entry.









End Registry.

Section InvariantSteps.






End InvariantSteps.

Lemma snd_then_ret {S A B : Type} (c : M S A) (b : B) (s : S) :
  snd ((c ;;; ret b) s) = snd (c s).
Proof. unfold bind, ret. destruct (c s) as [[a|e] s']; reflexivity. Qed.

Section HandlerSummaries.

Context {C : Collaborators}.




End HandlerSummaries.

Section Runs.

Context {C : Collaborators}.




End Runs.

(** Why a flush is counted on calls with a defined tab.  A request with
    [autoSaveRemove] and [autoSaveUnload] from a sender without a tab, for an
    id that holds the closed marker, is handed to [saveContent] by line 61
    with the rebuilt tab, and again by line 65 with the undefined
    [sender.tab]: that second call throws at its first statement. *)
Example remove_and_unload_without_tab :
  let C := Sample.collaborators None None false false false false false in
  let request := Sample.message 0 5 None false true true in
  let sender := {| sender_tab := None; sender_url := "https://example.org/" |} in
  let out := onMessage request sender (Sample.with_pending [(5, ClosedMarker)]) in
  fst out = Thrown (TypeError "tab is undefined")
  /\ log (snd out) = [EvSaveContent (SaveRequest request) (Some (tab_of_message request sender));
                      EvSaveContent (SaveRequest request) None]
  /\ flushes 0 (log (snd out)) = 1%nat.
Proof. repeat split; reflexivity. Qed.




(** * Further properties of the module *)

(** ** [saveContent] *)

Section SaveContentMore.

Context {C : Collaborators}.

Lemma stage_call_returns_not_throws call e :
  stage_call_returns call -> stage_call_throws call e -> False.
Proof.
  destruct call; cbn; try contradiction; intros [a Ha] Hb; congruence.
Qed.

Lemma stage_call_throws_is_stage call e : stage_call_throws call e -> is_stage call = true.
Proof. destruct call; cbn; try contradiction; reflexivity. Qed.

Ltac all_returned :=
  let c := fresh "c" in
  let Hin := fresh "Hin" in
  intros c Hin; cbn in Hin;
  repeat (destruct Hin as [<-|Hin]; [cbn; first [exact I | eexists; eassumption]|]);
  contradiction.

(** The log of the [try] block, stage by stage. *)
Lemma saveContent_try_shape message tab tabId fr :
  let out := saveContent_try message tab tabId fr in
  let drive := saveToGDrive (fr_options fr) in
  exists stages,
    log (fr_world (snd out)) = log (fr_world fr) ++ stages
    /\ (drive = true -> count_events is_local_delivery stages = O)
    /\ (drive = false -> count_events is_upload stages = O)
    /\ match fst out with
       | Ok _ => forall call, In call stages -> stage_call_returns call
       | Thrown e =>
           exists before failing,
             stages = before ++ [failing]
             /\ stage_call_throws failing e
             /\ forall call, In call before -> stage_call_returns call
       end
    /\ (forall pd o, In (DownloadPage pd o) stages ->
          exists captured testSkip page blob,
            getPageData (fr_options fr) = Returns captured
            /\ downloads_testSkipSave (pd_filename captured) (fr_options fr) = Returns testSkip
            /\ skipped testSkip = false
            /\ ((includeInfobar (fr_options fr) = false /\ page = captured)
                \/ (includeInfobar (fr_options fr) = true
                    /\ infobar_includeScript captured = Returns page))
            /\ o = set_filenameConflictAction (fr_options fr)
                     (ts_filenameConflictAction testSkip)
            /\ compression_process page (process_options o tab tabId) = Returns blob
            /\ pd = set_pd_url page (URL_createObjectURL blob)).
Proof.
  unfold saveContent_try. run_monad. split_cases.
  all: try discriminate.
  all: rewrite <- ?app_assoc; cbn.
  all: eexists; split; [reflexivity|].
  all: split; [intros; first [discriminate | reflexivity]|].
  all: split; [intros; first [discriminate | reflexivity]|].
  all: split;
    [first [ all_returned
           | match goal with
             | |- exists before failing, ?l = @?r before failing /\ @?P before failing =>
                 exists (List.removelast l), (List.last l (UiOnEnd 0 true))
             end;
             cbn; split; [reflexivity|]; split; [eassumption|]; all_returned ]|].
  all: intros page opts Hin; cbn in Hin.
  all: repeat (destruct Hin as [Hin|Hin]; [try discriminate Hin|]); try contradiction.
  all: inversion Hin; subst; do 4 eexists.
  all: split; [reflexivity|]; split; [eassumption|]; split; [eassumption|].
  all: split; [first [left; split; reflexivity | right; split; [reflexivity|eassumption]]|].
  all: split; [reflexivity|]; split; [eassumption|reflexivity].
Qed.

(** [saveContent] on a tab whose options resolve: its result is the result
    of the [try] block, and its log is framed by the start notification and
    the cleanup. *)
Lemma saveContent_stages message tab options w :
  config_getOptions (tab_url tab) true = Some options ->
  let out := saveContent message (Some tab) w in
  let merged := merge_message options message tab in
  exists stages pageData,
    log (snd out) =
      log w ++ [EvSaveContent message (Some tab); UiOnStart (tab_id tab) 1 true]
            ++ stages
            ++ completion_signal message options (replacedTabIds w) (tab_id tab)
            ++ release_events pageData ++ [UiOnEnd (tab_id tab) true]
    /\ (saveToGDrive options = true -> count_events is_local_delivery stages = O)
    /\ (saveToGDrive options = false -> count_events is_upload stages = O)
    /\ match fst out with
       | Ok _ => forall call, In call stages -> stage_call_returns call
       | Thrown e =>
           exists before failing,
             stages = before ++ [failing]
             /\ stage_call_throws failing e
             /\ forall call, In call before -> stage_call_returns call
       end
    /\ (forall pd o, In (DownloadPage pd o) stages ->
          exists captured testSkip page blob,
            getPageData merged = Returns captured
            /\ downloads_testSkipSave (pd_filename captured) merged = Returns testSkip
            /\ skipped testSkip = false
            /\ ((includeInfobar merged = false /\ page = captured)
                \/ (includeInfobar merged = true
                    /\ infobar_includeScript captured = Returns page))
            /\ o = set_filenameConflictAction merged (ts_filenameConflictAction testSkip)
            /\ compression_process page (process_options o tab (tab_id tab)) = Returns blob
            /\ pd = set_pd_url page (URL_createObjectURL blob)).
Proof.
  intros Hopt. unfold saveContent. rewrite Hopt. run_monad.
  cbn -[saveContent_try saveContent_finally].
  set (fr0 := {| fr_options := merge_message options message tab;
                 fr_pageData := None;
                 fr_world := record_event (UiOnStart (tab_id tab) 1 true)
                               (record_event (EvSaveContent message (Some tab)) w) |}).
  pose proof (saveContent_try_frame message tab (tab_id tab) fr0) as Hframe.
  pose proof (saveContent_try_shape message tab (tab_id tab) fr0) as Hshape.
  destruct (saveContent_try message tab (tab_id tab) fr0) as [r fr1].
  cbn -[merge_message] in Hframe, Hshape.
  destruct Hframe as (_ & Hrep & _ & Hdis & Hclose).
  destruct Hshape as (stages & Hstages & Hlocal & Hupload & Houtcome & Hdownload).
  pose proof (saveContent_finally_spec message (tab_id tab) fr1) as Hfin.
  destruct (saveContent_finally message (tab_id tab) fr1) as [rf fr2].
  cbn in Hfin. destruct Hfin as (Hok & Hlog2 & _).
  subst rf. cbn -[merge_message].
  assert (Hsig : completion_signal message (fr_options fr1) (replacedTabIds (fr_world fr1)) (tab_id tab)
                 = completion_signal message options (replacedTabIds w) (tab_id tab)).
  { unfold completion_signal. rewrite Hdis, Hclose, Hrep. reflexivity. }
  exists stages, (fr_pageData fr1).
  split; [rewrite Hlog2, Hstages, Hsig; cbn; rewrite <- !app_assoc; reflexivity|].
  split; [exact Hlocal|]. split; [exact Hupload|].
  split; [exact Houtcome|exact Hdownload].
Qed.

(** The cleanup holds no stage call. *)
Lemma cleanup_not_stage message options replaced tabId pageData call :
  In call (completion_signal message options replaced tabId
           ++ release_events pageData ++ [UiOnEnd tabId true]) ->
  is_stage call = false.
Proof.
  unfold completion_signal, release_events. intros Hin.
  repeat (apply in_app_or in Hin as [Hin|Hin]);
    repeat match type of Hin with
           | In _ (if ?b then _ else _) => destruct b
           | In _ (match ?x with _ => _ end) => destruct x
           end; cbn in Hin; intuition (subst; reflexivity).
Qed.

End SaveContentMore.

(** X1.  The capture throws: [saveContent] throws the same exception, no
    later stage is called, no object URL is released, and the cleanup still
    signals completion (or closes the tab) and notifies "save ended". *)
Theorem saveContent_capture_fails
    (C : Collaborators) (message : Entry) (tab : Tab) (options : Options) (w : World)
    (e : Error) :
  config_getOptions (tab_url tab) true = Some options ->
  getPageData (merge_message options message tab) = Throws e ->
  let out := saveContent message (Some tab) w in
  fst out = Thrown e
  /\ log (snd out) =
       log w ++ [EvSaveContent message (Some tab); UiOnStart (tab_id tab) 1 true;
                 GetPageData (merge_message options message tab)]
             ++ completion_signal message options (replacedTabIds w) (tab_id tab)
             ++ [UiOnEnd (tab_id tab) true]
  /\ pendingMessages (snd out) = pendingMessages w.
Proof.
  intros Hopt Hcapture out. unfold out, saveContent. rewrite Hopt.
  unfold saveContent_try, saveContent_finally, completion_signal.
  run_monad. cbn. rewrite Hcapture. cbn.
  destruct (truthy_opt truthy_num (entry_taskId message));
    destruct (autoSaveDiscard options && autoClose options); cbn;
    rewrite <- ?app_assoc; cbn; repeat split; reflexivity.
Qed.

Lemma saveContent_capture_fails_witness :
  let C := Sample.collaborators (Some (Sample.options false true true true)) None
             false true false false false in
  let message := SaveRequest (Sample.message 0 5 (Some 7) true true false) in
  let out := saveContent message (Some (Sample.tab 5)) (Sample.with_pending []) in
  fst out = Thrown (Failure "capture")
  /\ log (snd out) =
       [EvSaveContent message (Some (Sample.tab 5)); UiOnStart 5 1 true;
        GetPageData (merge_message (Sample.options false true true true) message (Sample.tab 5));
        BusinessOnSaveEnd (Some 7); UiOnEnd 5 true]
  /\ pendingMessages (snd out) = ∅.
Proof.
  intros C message.
  apply (saveContent_capture_fails C message (Sample.tab 5)
           (Sample.options false true true true) (Sample.with_pending [])
           (Failure "capture")); reflexivity.
Defined.

(** X2.  [saveContent] stops at the first stage that throws and rethrows
    its exception after the cleanup.  If a stage call of the run throws [e]
    -- the capture, the skip-check, the overlay injection, the
    compression, the upload or the download, for the arguments it was
    called with -- then [saveContent] throws [e], every stage called before
    it returned, and no stage is called after it.  If every stage call of
    the run returns, [saveContent] returns normally. *)
Theorem saveContent_stops_at_first_failure
    (C : Collaborators) (message : Entry) (tab : Tab) (options : Options) (w : World)
    (calls : list Event) :
  config_getOptions (tab_url tab) true = Some options ->
  log (snd (saveContent message (Some tab) w)) = log w ++ calls ->
  let result := fst (saveContent message (Some tab) w) in
  (forall call e,
      In call calls -> stage_call_throws call e ->
      result = Thrown e
      /\ exists before after,
           calls = before ++ call :: after
           /\ (forall c, In c before -> stage_call_returns c)
           /\ count_events is_stage after = O)
  /\ ((forall call, In call calls -> stage_call_returns call) -> result = Ok tt).
Proof.
  intros Hopt Hcalls result.
  destruct (saveContent_stages message tab options w Hopt)
    as (stages & pageData & Hlog & _ & _ & Houtcome & _).
  rewrite Hlog in Hcalls. apply app_inv_head in Hcalls. subst calls.
  fold result in Houtcome.
  set (cleanup := completion_signal message options (replacedTabIds w) (tab_id tab)
                  ++ release_events pageData ++ [UiOnEnd (tab_id tab) true]).
  assert (Hcleanup : count_events is_stage cleanup = O).
  { unfold cleanup. rewrite !count_events_app.
    rewrite completion_signal_not, release_events_not
      by (intros []; cbn; intros; first [discriminate | exact I]).
    reflexivity. }
  split.
  - intros call e Hin Hthrows.
    pose proof (stage_call_throws_is_stage call e Hthrows) as Hstage.
    cbn in Hin. destruct Hin as [<-|[<-|Hin]]; [discriminate Hstage..|].
    apply in_app_or in Hin as [Hin|Hin].
    2:{ rewrite (cleanup_not_stage _ _ _ _ _ _ Hin) in Hstage. discriminate. }
    destruct result as [[]|e0].
    { destruct (stage_call_returns_not_throws call e (Houtcome call Hin) Hthrows). }
    destruct Houtcome as (before & failing & -> & Hfailing & Hbefore).
    apply in_app_or in Hin as [Hin|[<-|[]]].
    { destruct (stage_call_returns_not_throws call e (Hbefore call Hin) Hthrows). }
    split.
    + f_equal. clear -Hfailing Hthrows.
      destruct failing; cbn in *; try contradiction; congruence.
    + exists ([EvSaveContent message (Some tab); UiOnStart (tab_id tab) 1 true] ++ before),
             cleanup.
      split; [|split; [|exact Hcleanup]].
      * cbn. rewrite <- !app_assoc. reflexivity.
      * intros c [<-|[<-|Hc]]; [exact I..|]. apply Hbefore, Hc.
  - intros Hall. destruct result as [[]|e0]; [reflexivity|].
    destruct Houtcome as (before & failing & -> & Hfailing & _).
    exfalso. apply (stage_call_returns_not_throws failing e0); [|exact Hfailing].
    apply Hall. cbn. do 2 right. apply in_or_app. left.
    apply in_or_app. right. left. reflexivity.
Qed.

Lemma saveContent_stops_at_first_failure_witness :
  let C := Sample.collaborators (Some (Sample.options true false false false)) None
             false false false true false in
  let message := SaveRequest (Sample.message 0 5 None false false false) in
  let w := Sample.with_pending [] in
  let merged := merge_message (Sample.options true false false false) message (Sample.tab 5) in
  let calls := log (snd (saveContent message (Some (Sample.tab 5)) w)) in
  let upload := UploadPage None "page.zip.html" "PK" merged in
  fst (saveContent message (Some (Sample.tab 5)) w) = Thrown (Failure "upload")
  /\ exists before after,
       calls = before ++ upload :: after
       /\ (forall c, In c before -> stage_call_returns c)
       /\ count_events is_stage after = O.
Proof.
  intros C message w merged calls upload.
  apply (proj1 (saveContent_stops_at_first_failure C message (Sample.tab 5)
                  (Sample.options true false false false) w calls eq_refl eq_refl)
           upload (Failure "upload")).
  - cbn. do 4 right. left. reflexivity.
  - reflexivity.
Defined.

(** X3.  The two destinations exclude each other, whatever the stages
    answer.  With [saveToGDrive] the skip-check is not consulted, no object
    URL is created and the download is not called; without it the upload is
    not called. *)
Theorem saveContent_destination_exclusive
    (C : Collaborators) (message : Entry) (tab : Tab) (options : Options) (w : World) :
  config_getOptions (tab_url tab) true = Some options ->
  let w' := snd (saveContent message (Some tab) w) in
  (saveToGDrive options = true ->
     count_events is_local_delivery (log w') = count_events is_local_delivery (log w))
  /\ (saveToGDrive options = false ->
       count_events is_upload (log w') = count_events is_upload (log w)).
Proof.
  intros Hopt w'.
  destruct (saveContent_stages message tab options w Hopt)
    as (stages & pageData & Hlog & Hlocal & Hupload & _).
  fold w' in Hlog.
  split; intros Hdrive; rewrite Hlog, !count_events_app;
    rewrite completion_signal_not, release_events_not
      by (intros []; cbn; intros; first [discriminate | exact I]);
    [rewrite (Hlocal Hdrive)|rewrite (Hupload Hdrive)]; cbn; lia.
Qed.

Lemma saveContent_destination_exclusive_witness :
  let C := Sample.collaborators (Some (Sample.options true true false false)) None
             false false false false false in
  let w := Sample.with_pending [] in
  let w' := snd (saveContent (SaveRequest (Sample.message 0 5 None false false false))
                   (Some (Sample.tab 5)) w) in
  count_events is_local_delivery (log w') = count_events is_local_delivery (log w).
Proof.
  intros C w.
  apply (proj1 (saveContent_destination_exclusive C
                  (SaveRequest (Sample.message 0 5 None false false false))
                  (Sample.tab 5) (Sample.options true true false false) w eq_refl)).
  reflexivity.
Defined.

(** X4.  Whenever [saveContent] calls the download, the capture has
    returned, the skip-check has returned and did not ask to skip, the
    overlay injection (when the options include it) has returned, the
    compression of the resulting page data has returned a blob, the options
    handed to the download carry the conflict action that the skip-check
    answered, and the page data handed to it are those page data with their
    [url] set to the object URL created for that blob. *)
Theorem saveContent_download_after_skip_check
    (C : Collaborators) (message : Entry) (tab : Tab) (options : Options) (w : World)
    (calls : list Event) (pd : PageData) (o : Options) :
  config_getOptions (tab_url tab) true = Some options ->
  log (snd (saveContent message (Some tab) w)) = log w ++ calls ->
  In (DownloadPage pd o) calls ->
  let merged := merge_message options message tab in
  exists captured testSkip page blob,
    getPageData merged = Returns captured
    /\ downloads_testSkipSave (pd_filename captured) merged = Returns testSkip
    /\ skipped testSkip = false
    /\ ((includeInfobar options = false /\ page = captured)
        \/ (includeInfobar options = true /\ infobar_includeScript captured = Returns page))
    /\ o = set_filenameConflictAction merged (ts_filenameConflictAction testSkip)
    /\ compression_process page (process_options o tab (tab_id tab)) = Returns blob
    /\ pd = set_pd_url page (URL_createObjectURL blob).
Proof.
  intros Hopt Hcalls Hin merged.
  destruct (saveContent_stages message tab options w Hopt)
    as (stages & pageData & Hlog & _ & _ & _ & Hdownload).
  rewrite Hlog in Hcalls. apply app_inv_head in Hcalls. subst calls.
  cbn in Hin. destruct Hin as [Hin|[Hin|Hin]]; [discriminate..|].
  apply in_app_or in Hin as [Hin|Hin].
  - exact (Hdownload pd o Hin).
  - apply cleanup_not_stage in Hin. discriminate Hin.
Qed.

Lemma saveContent_download_after_skip_check_witness :
  let C := Sample.collaborators (Some (Sample.options false false false false)) None
             false false false false false in
  let message := SaveRequest (Sample.message 0 5 None false false false) in
  let merged := merge_message (Sample.options false false false false) message (Sample.tab 5) in
  let o := set_filenameConflictAction merged (Some "uniquify") in
  exists captured testSkip page blob,
    getPageData merged = Returns captured
    /\ downloads_testSkipSave (pd_filename captured) merged = Returns testSkip
    /\ skipped testSkip = false
    /\ ((false = false /\ page = captured)
        \/ (false = true /\ infobar_includeScript captured = Returns page))
    /\ o = set_filenameConflictAction merged (ts_filenameConflictAction testSkip)
    /\ compression_process page (process_options o (Sample.tab 5) 5) = Returns blob
    /\ set_pd_url Sample.pageData "blob:1" = set_pd_url page (URL_createObjectURL blob).
Proof.
  intros C message merged o.
  apply (saveContent_download_after_skip_check C message (Sample.tab 5)
           (Sample.options false false false false) (Sample.with_pending [])
           (skipn 0 (log (snd (saveContent message (Some (Sample.tab 5))
                                 (Sample.with_pending [])))))
           (set_pd_url Sample.pageData "blob:1") o).
  - reflexivity.
  - reflexivity.
  - cbn. do 6 right. left. reflexivity.
Defined.

(** ** The registry and the redirect table under the handlers *)

Section Frames.

Context {C : Collaborators}.

(** What [saveContent] leaves alone, for any arguments. *)
Lemma saveContent_frame e t w :
  let w' := snd (saveContent e t w) in
  pendingMessages w' = pendingMessages w
  /\ tabsData w' = tabsData w
  /\ (forall k v, replacedTabIds w' !! k = Some v -> replacedTabIds w !! k = Some v).
Proof.
  destruct (saveContent_effect e t w) as (Hpm & Htd & _).
  split; [exact Hpm|]. split; [exact Htd|].
  intros k v. destruct t as [tab|].
  - rewrite saveContent_replacedTabIds.
    destruct (config_getOptions (tab_url tab) true) as [options|]; [|auto].
    destruct (closes_tab e options); [|auto].
    intros H. apply lookup_delete_Some in H as [_ H]. exact H.
  - unfold saveContent. run_monad. cbn. auto.
Qed.

Ltac enter_frame :=
  match goal with
  | |- context [saveContent ?m ?t ?w] =>
      let r := fresh "r" in
      let w' := fresh "w'" in
      let Hpm := fresh "Hpm" in
      let Htd := fresh "Htd" in
      let Hrep := fresh "Hrep" in
      destruct (saveContent_frame m t w) as (Hpm & Htd & Hrep);
      destruct (saveContent m t w) as [r w'];
      cbn in Hpm, Htd, Hrep
  end.

Lemma onMessage_frame message sender w :
  let w' := snd (onMessage message sender w) in
  (forall k, ~ In k (input_keys (MessageReceived message sender)) ->
     pendingMessages w' !! k = pendingMessages w !! k)
  /\ tabsData w' = tabsData w
  /\ (forall k v, replacedTabIds w' !! k = Some v -> replacedTabIds w !! k = Some v).
Proof.
  cbn zeta. unfold onMessage.
  destruct (endsWith (msg_method message) ".init").
  { destruct (sender_tab sender); cbn; auto. }
  destruct (endsWith (msg_method message) ".save"); [|cbn; auto].
  rewrite !snd_then_ret. run_monad. cbn -[saveContent].
  destruct (msg_autoSaveDiscard message || msg_autoSaveRemove message).
  - destruct (sender_tab sender) as [tab|] eqn:Htab; cbn -[saveContent].
    + destruct (msg_autoSaveUnload message); cbn -[saveContent].
      * enter_frame. cbn [snd]. rewrite Hpm, Htd.
        split; [|split; [reflexivity|exact Hrep]].
        intros k Hk. rewrite lookup_delete_ne, lookup_insert_ne; [reflexivity|..];
          intros <-; apply Hk; cbn; auto.
      * cbn. split; [|auto]. intros k Hk.
        rewrite lookup_insert_ne; [reflexivity|]. intros <-. apply Hk. cbn. auto.
    + destruct (truthy_opt entry_removed (pendingMessages w !! msg_tabId message)
                && msg_autoSaveRemove message); cbn -[saveContent].
      * enter_frame.
        destruct r as [[]|err]; cbn -[saveContent].
        -- destruct (msg_autoSaveUnload message); cbn -[saveContent].
           ++ enter_frame. cbn [snd]. rewrite Hpm0, Hpm, Htd0, Htd.
              split; [|split; [reflexivity|auto]].
              intros k Hk. rewrite !lookup_delete_ne; [reflexivity|..];
                intros <-; apply Hk; cbn; auto.
           ++ rewrite Hpm, Htd. split; [|split; [reflexivity|exact Hrep]].
              intros k Hk. rewrite lookup_delete_ne; [reflexivity|].
              intros <-; apply Hk; cbn; auto.
        -- rewrite Hpm, Htd. split; [|split; [reflexivity|exact Hrep]].
           intros k Hk. rewrite lookup_delete_ne; [reflexivity|].
           intros <-; apply Hk; cbn; auto.
      * destruct (msg_autoSaveUnload message); cbn -[saveContent]; [|auto].
        enter_frame. cbn [snd]. rewrite Hpm, Htd.
        split; [|split; [reflexivity|exact Hrep]].
        intros k Hk. rewrite lookup_delete_ne; [reflexivity|].
        intros <-; apply Hk; cbn; auto.
  - enter_frame. cbn [snd]. rewrite Hpm, Htd.
    split; [|split; [reflexivity|exact Hrep]].
    intros k Hk. rewrite lookup_delete_ne; [reflexivity|].
    intros <-; apply Hk; cbn; auto.
Qed.

End Frames.

(** X5.  Tabs do not contend.  Whatever the input and the outcome of the
    save it may start, its handler leaves the registry entry of every tab
    id that the input does not name as it was, and never touches the stored
    tabs data. *)
Theorem handle_frame (C : Collaborators) (i : Input) (w : World) (k : Z) :
  ~ In k (input_keys i) ->
  pendingMessages (snd (handle i w)) !! k = pendingMessages w !! k
  /\ tabsData (snd (handle i w)) = tabsData w.
Proof.
  intros Hk.
  destruct i as [message sender|tabId|tabId|tabId|added removed]; cbn [handle].
  - rewrite snd_then_ret.
    destruct (onMessage_frame message sender w) as (Hpm & Htd & _). auto.
  - cbn. split; [|reflexivity].
    apply lookup_delete_ne. intros ->. apply Hk. cbn. auto.
  - assert (Hne : tabId <> k) by (intros ->; apply Hk; cbn; auto).
    destruct (pendingMessages w !! tabId) as [e|] eqn:Hget.
    + destruct (entry_autoSaveRemove e) eqn:Hremove.
      * rewrite (onTabRemoved_flush tabId e w Hget Hremove).
        destruct (saveContent_frame e (entry_tab e) (set_pendingMessages (delete tabId) w))
          as (Hpm & Htd & _).
        rewrite Hpm, Htd. cbn. split; [apply lookup_delete_ne, Hne|reflexivity].
      * unfold onTabRemoved. run_monad. cbn. rewrite Hget, Hremove. auto.
    + unfold onTabRemoved. run_monad. cbn. rewrite Hget. cbn.
      split; [apply lookup_insert_ne, Hne|reflexivity].
  - assert (Hne : tabId <> k) by (intros ->; apply Hk; cbn; auto).
    destruct (pendingMessages w !! tabId) as [e|] eqn:Hget.
    + rewrite (onTabDiscarded_flush tabId e w Hget).
      destruct (saveContent_frame e (entry_tab e) (set_pendingMessages (delete tabId) w))
        as (Hpm & Htd & _).
      rewrite Hpm, Htd. cbn. split; [apply lookup_delete_ne, Hne|reflexivity].
    + unfold onTabDiscarded. run_monad. cbn. rewrite Hget. auto.
  - assert (Ha : added <> k) by (intros ->; apply Hk; cbn; auto).
    assert (Hr : removed <> k) by (intros ->; apply Hk; cbn; auto).
    destruct (pendingMessages w !! removed) as [e|] eqn:Hremoved;
      [destruct (pendingMessages w !! added) as [e'|] eqn:Hadded|].
    + rewrite (onTabReplaced_noop added removed w) by (left; rewrite Hadded; eauto). auto.
    + rewrite (onTabReplaced_move added removed e w Hremoved Hadded). cbn.
      split; [|reflexivity].
      rewrite lookup_delete_ne, lookup_insert_ne by assumption. reflexivity.
    + rewrite (onTabReplaced_noop added removed w) by (right; exact Hremoved). auto.
Qed.

Lemma handle_frame_witness :
  let C := Sample.collaborators (Some (Sample.options false false true true)) None
             false false false false false in
  let other := SaveRequest (Sample.message 1 9 None true false false) in
  let w := Sample.with_pending
             [(5, SaveRequest (set_msg_tab (Sample.message 0 5 None true true false)
                                 (Some (Sample.tab 5))));
              (9, other)] in
  pendingMessages (snd (handle (TabRemoved 5) w)) !! 9 = pendingMessages w !! 9
  /\ tabsData (snd (handle (TabRemoved 5) w)) = tabsData w.
Proof.
  intros C other w.
  apply (handle_frame C (TabRemoved 5) w 9).
  cbn. intros [H|[]]. discriminate H.
Defined.

(** X6.  Only [onTabReplaced] adds a redirect: after any other input, every
    entry of the redirect table was there before. *)
Theorem redirects_only_added_by_replacement
    (C : Collaborators) (i : Input) (w : World) (k v : Z) :
  (forall added removed, i <> TabReplaced added removed) ->
  replacedTabIds (snd (handle i w)) !! k = Some v ->
  replacedTabIds w !! k = Some v.
Proof.
  intros Hi.
  destruct i as [message sender|tabId|tabId|tabId|added removed]; cbn [handle].
  - rewrite snd_then_ret.
    destruct (onMessage_frame message sender w) as (_ & _ & Hrep). apply Hrep.
  - cbn. auto.
  - destruct (pendingMessages w !! tabId) as [e|] eqn:Hget.
    + destruct (entry_autoSaveRemove e) eqn:Hremove.
      * rewrite (onTabRemoved_flush tabId e w Hget Hremove).
        destruct (saveContent_frame e (entry_tab e) (set_pendingMessages (delete tabId) w))
          as (_ & _ & Hrep).
        apply Hrep.
      * unfold onTabRemoved. run_monad. cbn. rewrite Hget, Hremove. auto.
    + unfold onTabRemoved. run_monad. cbn. rewrite Hget. cbn. auto.
  - destruct (pendingMessages w !! tabId) as [e|] eqn:Hget.
    + rewrite (onTabDiscarded_flush tabId e w Hget).
      destruct (saveContent_frame e (entry_tab e) (set_pendingMessages (delete tabId) w))
        as (_ & _ & Hrep).
      apply Hrep.
    + unfold onTabDiscarded. run_monad. cbn. rewrite Hget. auto.
  - destruct (Hi added removed eq_refl).
Qed.

Lemma redirects_only_added_by_replacement_witness :
  let C := Sample.collaborators (Some (Sample.options false false true false)) None
             false false false false false in
  let request := Sample.message 0 1 None true true false in
  let sender := {| sender_tab := Some (Sample.tab 1); sender_url := "https://example.org/" |} in
  let w := run [MessageReceived request sender; TabReplaced 2 1] (initial Sample.data) in
  replacedTabIds w !! 1 = Some 2.
Proof.
  intros C request sender w.
  apply (redirects_only_added_by_replacement C (TabRemoved 2) w 1 2).
  - intros added removed H. discriminate H.
  - reflexivity.
Defined.

(** ** Sequences of events on one tab *)

(** X7.  [onTabUpdated] supersedes whatever the tab id holds, message or
    closed marker: the entry is gone, nothing is saved, and the events that
    may follow on that id find nothing -- [onTabDiscarded] does nothing and
    [onTabRemoved] only records the closed marker. *)
Theorem onTabUpdated_supersedes (C : Collaborators) (tabId : Z) (w : World) :
  let w1 := snd (onTabUpdated tabId w) in
  pendingMessages w1 !! tabId = None
  /\ log w1 = log w
  /\ onTabDiscarded tabId w1 = (Ok tt, w1)
  /\ log (snd (onTabRemoved tabId w1)) = log w
  /\ pendingMessages (snd (onTabRemoved tabId w1)) !! tabId = Some ClosedMarker.
Proof.
  intros w1.
  assert (Hget : pendingMessages w1 !! tabId = None) by apply lookup_delete_eq.
  split; [exact Hget|]. split; [reflexivity|].
  unfold onTabDiscarded, onTabRemoved. run_monad. cbn -[w1].
  rewrite Hget. cbn -[w1].
  split; [reflexivity|]. split; [reflexivity|apply lookup_insert_eq].
Qed.

(** X8.  A lifecycle event delivered twice in a row saves at most once: the
    second [onTabRemoved], or the second [onTabDiscarded], for the same id
    adds nothing to the log, whatever the registry held and whatever the
    first save did. *)
Theorem lifecycle_event_repeated (C : Collaborators) (i : Input) (tabId : Z) (w : World) :
  i = TabRemoved tabId \/ i = TabDiscarded tabId ->
  log (run [i; i] w) = log (run [i] w).
Proof.
  intros [-> | ->]; cbn [run handle].
  - assert (Hafter : pendingMessages (snd (onTabRemoved tabId w)) !! tabId = None
                     \/ exists e, pendingMessages (snd (onTabRemoved tabId w)) !! tabId = Some e
                                  /\ entry_autoSaveRemove e = false).
    { destruct (pendingMessages w !! tabId) as [e|] eqn:Hget.
      - destruct (entry_autoSaveRemove e) eqn:Hremove.
        + rewrite (onTabRemoved_flush tabId e w Hget Hremove).
          destruct (saveContent_effect e (entry_tab e) (set_pendingMessages (delete tabId) w))
            as (Hpm & _).
          left. rewrite Hpm. apply lookup_delete_eq.
        + right. exists e. unfold onTabRemoved. run_monad. cbn.
          rewrite Hget, Hremove. auto.
      - right. exists ClosedMarker. unfold onTabRemoved. run_monad. cbn.
        rewrite Hget. cbn. split; [apply lookup_insert_eq|reflexivity]. }
    destruct (onTabRemoved tabId w) as [r w1]. cbn [snd] in *.
    unfold onTabRemoved. run_monad. cbn.
    destruct Hafter as [Hnone|(e & Hsome & Hremove)].
    + rewrite Hnone. reflexivity.
    + rewrite Hsome, Hremove. reflexivity.
  - assert (Hafter : pendingMessages (snd (onTabDiscarded tabId w)) !! tabId = None).
    { destruct (pendingMessages w !! tabId) as [e|] eqn:Hget.
      - rewrite (onTabDiscarded_flush tabId e w Hget).
        destruct (saveContent_effect e (entry_tab e) (set_pendingMessages (delete tabId) w))
          as (Hpm & _).
        rewrite Hpm. apply lookup_delete_eq.
      - unfold onTabDiscarded. run_monad. cbn. rewrite Hget. exact Hget. }
    destruct (onTabDiscarded tabId w) as [r w1]. cbn [snd] in *.
    unfold onTabDiscarded. run_monad. cbn. rewrite Hafter. reflexivity.
Qed.

Lemma lifecycle_event_repeated_witness :
  let C := Sample.collaborators (Some (Sample.options false false true true)) None
             false false false false false in
  let w := Sample.with_pending
             [(5, SaveRequest (set_msg_tab (Sample.message 0 5 None true true false)
                                 (Some (Sample.tab 5))))] in
  log (run [TabRemoved 5; TabRemoved 5] w) = log (run [TabRemoved 5] w).
Proof.
  intros C w.
  apply (lifecycle_event_repeated C (TabRemoved 5) 5 w). left. reflexivity.
Defined.

(** X9.  A flush for a URL whose options do not resolve uses up the intent:
    the entry is deleted, [saveContent] is entered and returns at once, and
    no collaborator is called -- no start or end notification, no capture. *)
Theorem flush_unresolved_consumes_intent
    (C : Collaborators) (i : Input) (tabId : Z) (m : Message) (tab : Tab) (w : World) :
  pendingMessages w !! tabId = Some (SaveRequest m) ->
  msg_tab m = Some tab ->
  config_getOptions (tab_url tab) true = None ->
  i = TabDiscarded tabId \/ (i = TabRemoved tabId /\ msg_autoSaveRemove m = true) ->
  handle i w
  = (Ok tt, record_event (EvSaveContent (SaveRequest m) (Some tab))
              (set_pendingMessages (delete tabId) w)).
Proof.
  intros Hget Htab Hopt Hi.
  assert (Hrun : handle i w
                 = saveContent (SaveRequest m) (Some tab) (set_pendingMessages (delete tabId) w)).
  { destruct Hi as [->|[-> Hremove]]; cbn [handle].
    - rewrite (onTabDiscarded_flush tabId _ w Hget). cbn [entry_tab]. rewrite Htab. reflexivity.
    - rewrite (onTabRemoved_flush tabId _ w Hget Hremove). cbn [entry_tab].
      rewrite Htab. reflexivity. }
  rewrite Hrun. unfold saveContent. rewrite Hopt. reflexivity.
Qed.

Lemma flush_unresolved_consumes_intent_witness :
  let C := Sample.collaborators None None false false false false false in
  let m := set_msg_tab (Sample.message 0 5 None true false false) (Some (Sample.tab 5)) in
  let w := Sample.with_pending [(5, SaveRequest m)] in
  handle (TabDiscarded 5) w
  = (Ok tt, record_event (EvSaveContent (SaveRequest m) (Some (Sample.tab 5)))
              (set_pendingMessages (delete 5) w)).
Proof.
  intros C m w.
  apply (flush_unresolved_consumes_intent C (TabDiscarded 5) 5 m (Sample.tab 5) w);
    try reflexivity.
  left. reflexivity.
Defined.

(** X10.  The closing of a replaced tab goes to its current id.  The
    message was stored under [old] with the tab of id [old]; [old] is
    replaced by [new] and the message is flushed by [onTabDiscarded new].
    When the cleanup closes the tab, [tabs.remove] is called once, with
    [new] -- or with [old] when [new] is 0, which [||] takes for missing --
    and the redirect is deleted. *)
Theorem replaced_tab_closed_under_current_id
    (C : Collaborators) (old new : Z) (m : Message) (tab : Tab) (options : Options)
    (w : World) :
  pendingMessages w !! old = Some (SaveRequest m) ->
  msg_tab m = Some tab ->
  tab_id tab = old ->
  pendingMessages w !! new = None ->
  config_getOptions (tab_url tab) true = Some options ->
  closes_tab (SaveRequest m) options = true ->
  let w2 := run [TabReplaced new old; TabDiscarded new] w in
  (exists before after,
      log w2 = log w ++ before ++ TabsRemove (if Z.eqb new 0 then old else new) :: after
      /\ count_events is_tabsRemove before = O
      /\ count_events is_tabsRemove after = O)
  /\ replacedTabIds w2 !! old = None.
Proof.
  intros Hold Htab Hid Hnew Hopt Hcloses w2.
  assert (Hne : old <> new) by (intros ->; rewrite Hold in Hnew; discriminate).
  unfold w2. cbn [run handle].
  rewrite (onTabReplaced_move new old (SaveRequest m) w Hold Hnew). cbn [snd].
  set (w1 := set_replacedTabIds _ _).
  assert (Hget : pendingMessages w1 !! new = Some (SaveRequest m)).
  { cbn. rewrite lookup_delete_ne by exact Hne. apply lookup_insert_eq. }
  rewrite (onTabDiscarded_flush new (SaveRequest m) w1 Hget).
  cbn [entry_tab]. rewrite Htab.
  set (w1' := set_pendingMessages (delete new) w1).
  destruct (saveContent_resolved (SaveRequest m) tab options w1' Hopt)
    as (stages & pageData & Hlog & Hall & _ & _ & _ & Hrep).
  split.
  - exists ([EvSaveContent (SaveRequest m) (Some tab); UiOnStart (tab_id tab) 1 true] ++ stages),
           (release_events pageData ++ [UiOnEnd (tab_id tab) true]).
    split; [|split].
    + rewrite Hlog. unfold completion_signal, closes_tab in *.
      apply andb_prop in Hcloses as [Htask Hclose].
      apply negb_true_iff in Htask. rewrite Htask, Hclose.
      cbn [log w1' w1 set_pendingMessages set_replacedTabIds replacedTabIds].
      unfold current_tab_id. rewrite Hid, lookup_insert_eq.
      unfold truthy_num. destruct (Z.eqb new 0); cbn [negb];
        rewrite <- !app_assoc; reflexivity.
    + rewrite count_events_app. cbn.
      apply (count_events_none is_stage); [intros []; cbn; congruence|exact Hall].
    + rewrite count_events_app, release_events_not
        by (intros []; cbn; intros; first [discriminate | exact I]).
      reflexivity.
  - rewrite Hrep, Hcloses, Hid. apply lookup_delete_eq.
Qed.

Lemma replaced_tab_closed_under_current_id_witness :
  let C := Sample.collaborators (Some (Sample.options false false true true)) None
             false false false false false in
  let m := set_msg_tab (Sample.message 0 1 None true false false) (Some (Sample.tab 1)) in
  let w := Sample.with_pending [(1, SaveRequest m)] in
  let w2 := run [TabReplaced 2 1; TabDiscarded 2] w in
  (exists before after,
      log w2 = log w ++ before ++ TabsRemove 2 :: after
      /\ count_events is_tabsRemove before = O
      /\ count_events is_tabsRemove after = O)
  /\ replacedTabIds w2 !! 1 = None.
Proof.
  intros C m w.
  apply (replaced_tab_closed_under_current_id C 1 2 m (Sample.tab 1)
           (Sample.options false false true true) w); reflexivity.
Defined.

(** ** More on the save request *)

(** X11.  The tab was removed before its request arrived.  [onTabRemoved]
    on an id that holds nothing, then a request with [autoSaveRemove] and
    without [autoSaveUnload] from a sender without a tab: the closed marker
    is used up, and [saveContent] is entered exactly once, with the message
    and a tab rebuilt from [message.tabId], [message.tabIndex] and
    [sender.url]. *)
Theorem request_after_removal_is_flushed
    (C : Collaborators) (message : Message) (sender : Sender) (w : World) :
  pendingMessages w !! msg_tabId message = None ->
  endsWith (msg_method message) ".save" = true ->
  msg_autoSaveRemove message = true ->
  msg_autoSaveUnload message = false ->
  sender_tab sender = None ->
  let w2 := run [TabRemoved (msg_tabId message); MessageReceived message sender] w in
  let rebuilt := {| tab_id := msg_tabId message; tab_index := msg_tabIndex message;
                    tab_url := sender_url sender; tab_pinned := false;
                    tab_incognito := None |} in
  pendingMessages w2 !! msg_tabId message = None
  /\ exists calls,
       log w2 = log w ++ EvSaveContent (SaveRequest message) (Some rebuilt) :: calls
       /\ count_events is_saveContent calls = O.
Proof.
  intros Hnone Hsave Hremove Hunload Htab w2 rebuilt.
  unfold w2. cbn [run handle].
  assert (H1 : snd (onTabRemoved (msg_tabId message) w)
               = set_pendingMessages (insert (msg_tabId message) ClosedMarker) w).
  { unfold onTabRemoved. run_monad. cbn. rewrite Hnone. reflexivity. }
  rewrite H1, snd_then_ret.
  set (w1 := set_pendingMessages _ w).
  assert (Hrun : snd (onMessage message sender w1)
                 = snd (saveContent (SaveRequest message) (Some rebuilt)
                          (set_pendingMessages (delete (msg_tabId message)) w1))).
  { unfold onMessage.
    rewrite (endsWith_save_not_init _ Hsave), Hsave, Hremove, orb_true_r, Htab.
    rewrite snd_then_ret. run_monad. cbn -[saveContent].
    rewrite lookup_insert_eq. cbn -[saveContent].
    change (tab_of_message message sender) with rebuilt.
    match goal with
    | |- context [saveContent ?e ?t ?w0] => destruct (saveContent e t w0) as [[[]|err] w']
    end; cbn; rewrite ?Hunload; reflexivity. }
  rewrite Hrun.
  destruct (saveContent_effect (SaveRequest message) (Some rebuilt)
              (set_pendingMessages (delete (msg_tabId message)) w1))
    as (Hpm & _ & calls & Hlog & Hcalls).
  split; [rewrite Hpm; apply lookup_delete_eq|].
  exists calls. split; [exact Hlog|exact Hcalls].
Qed.

Lemma request_after_removal_is_flushed_witness :
  let C := Sample.collaborators (Some (Sample.options false false false false)) None
             false false false false false in
  let request := Sample.message 0 5 None false true false in
  let sender := {| sender_tab := None; sender_url := "https://example.org/" |} in
  let w := initial Sample.data in
  let w2 := run [TabRemoved 5; MessageReceived request sender] w in
  let rebuilt := {| tab_id := 5; tab_index := 0; tab_url := "https://example.org/";
                    tab_pinned := false; tab_incognito := None |} in
  pendingMessages w2 !! 5 = None
  /\ exists calls,
       log w2 = log w ++ EvSaveContent (SaveRequest request) (Some rebuilt) :: calls
       /\ count_events is_saveContent calls = O.
Proof.
  intros C request sender w.
  apply (request_after_removal_is_flushed C request sender w); reflexivity.
Defined.

(** X12.  A stored request replaces what the tab id held.  Two requests
    that are only stored (with [autoSaveDiscard] or [autoSaveRemove],
    without [autoSaveUnload]) from senders with the same tab id leave the
    world that the second one alone would have left: the first message is
    dropped without having been saved. *)
Theorem later_request_replaces_earlier
    (C : Collaborators) (m1 m2 : Message) (s1 s2 : Sender) (t1 t2 : Tab) (w : World) :
  endsWith (msg_method m1) ".save" = true ->
  endsWith (msg_method m2) ".save" = true ->
  msg_autoSaveDiscard m1 || msg_autoSaveRemove m1 = true ->
  msg_autoSaveDiscard m2 || msg_autoSaveRemove m2 = true ->
  msg_autoSaveUnload m1 = false ->
  msg_autoSaveUnload m2 = false ->
  sender_tab s1 = Some t1 ->
  sender_tab s2 = Some t2 ->
  tab_id t1 = tab_id t2 ->
  run [MessageReceived m1 s1; MessageReceived m2 s2] w = run [MessageReceived m2 s2] w
  /\ log (run [MessageReceived m1 s1; MessageReceived m2 s2] w) = log w.
Proof.
  intros Hs1 Hs2 Hf1 Hf2 Hu1 Hu2 Ht1 Ht2 Hid.
  cbn [run handle]. rewrite !snd_then_ret.
  rewrite (onMessage_store m1 s1 t1 w Hs1 Hf1 Hu1 Ht1). cbn [snd].
  rewrite !(onMessage_store m2 s2 t2 _ Hs2 Hf2 Hu2 Ht2). cbn [snd].
  split; [|reflexivity].
  unfold set_pendingMessages. cbn. rewrite Hid, insert_insert_eq. reflexivity.
Qed.

Lemma later_request_replaces_earlier_witness :
  let C := Sample.collaborators (Some (Sample.options false false false false)) None
             false false false false false in
  let sender := {| sender_tab := Some (Sample.tab 5); sender_url := "https://example.org/" |} in
  let m1 := Sample.message 0 5 None true false false in
  let m2 := Sample.message 1 5 None false true false in
  let w := initial Sample.data in
  run [MessageReceived m1 sender; MessageReceived m2 sender] w
  = run [MessageReceived m2 sender] w
  /\ log (run [MessageReceived m1 sender; MessageReceived m2 sender] w) = log w.
Proof.
  intros C sender m1 m2 w.
  apply (later_request_replaces_earlier C m1 m2 sender sender (Sample.tab 5) (Sample.tab 5) w);
    reflexivity.
Defined.

(** X13.  The init request reads and changes nothing.  From a sender with a
    tab the answer carries the options resolved for the tab's URL, the
    answer of [isEnabled] for the tab, and the tab's id and index; from a
    sender without a tab the handler throws a [TypeError].  In both cases
    the world is returned as it was given. *)
Theorem onMessage_init_reads_only
    (C : Collaborators) (message : Message) (sender : Sender) (w : World) :
  endsWith (msg_method message) ".init" = true ->
  match sender_tab sender with
  | Some tab =>
      exists enabled,
        isEnabled (Some tab) w = (Ok (Some enabled), w)
        /\ onMessage message sender w
           = (Ok (InitResponse (config_getOptions (tab_url tab) true) (Some enabled)
                    (tab_id tab) (tab_index tab)), w)
  | None =>
      exists what, onMessage message sender w = (Thrown (TypeError what), w)
  end.
Proof.
  intros Hinit. unfold onMessage. rewrite Hinit.
  destruct (sender_tab sender) as [tab|].
  - eexists. split; reflexivity.
  - eexists. reflexivity.
Qed.

Lemma onMessage_init_reads_only_witness :
  let C := Sample.collaborators (Some (Sample.options false false false false)) None
             false false false false false in
  let message := {| msg_ref := 0; msg_method := "autosave.init"; msg_tabId := 0;
                    msg_tabIndex := 0; msg_taskId := None; msg_autoSaveDiscard := false;
                    msg_autoSaveRemove := false; msg_autoSaveUnload := false;
                    msg_payload := Sample.payload; msg_tab := None |} in
  let w := Sample.with_pending [(5, ClosedMarker)] in
  exists what,
    onMessage message {| sender_tab := None; sender_url := "" |} w
    = (Thrown (TypeError what), w).
Proof.
  intros C message w.
  apply (onMessage_init_reads_only C message {| sender_tab := None; sender_url := "" |} w).
  reflexivity.
Defined.

(** X14.  A request with [autoSaveUnload] (next to [autoSaveDiscard] or
    [autoSaveRemove]) from the tab it names is saved at once and not kept:
    lines 57-58 store it, line 64 deletes it again, and [saveContent] is
    entered exactly once, with the message carrying the tab and with the
    sender's tab. *)
Theorem unload_request_flushed_at_once
    (C : Collaborators) (message : Message) (sender : Sender) (tab : Tab) (w : World) :
  endsWith (msg_method message) ".save" = true ->
  msg_autoSaveDiscard message || msg_autoSaveRemove message = true ->
  msg_autoSaveUnload message = true ->
  sender_tab sender = Some tab ->
  tab_id tab = msg_tabId message ->
  let w' := snd (onMessage message sender w) in
  pendingMessages w' = delete (tab_id tab) (pendingMessages w)
  /\ exists calls,
       log w' = log w ++ EvSaveContent (SaveRequest (set_msg_tab message (Some tab)))
                                       (Some tab) :: calls
       /\ count_events is_saveContent calls = O.
Proof.
  intros Hsave Hflags Hunload Htab Hid w'.
  assert (Hrun : snd (onMessage message sender w)
                 = snd (saveContent (SaveRequest (set_msg_tab message (Some tab))) (Some tab)
                          (set_pendingMessages (delete (msg_tabId message))
                             (set_pendingMessages
                                (insert (tab_id tab)
                                   (SaveRequest (set_msg_tab message (Some tab)))) w)))).
  { unfold onMessage.
    rewrite (endsWith_save_not_init _ Hsave), Hsave, Hflags, Htab.
    rewrite snd_then_ret. run_monad. cbn -[saveContent]. rewrite Hunload. reflexivity. }
  unfold w'. rewrite Hrun.
  match goal with
  | |- context [saveContent ?e ?t ?w0] =>
      destruct (saveContent_effect e t w0) as (Hpm & _ & calls & Hlog & Hcalls)
  end.
  split; [rewrite Hpm; cbn; rewrite Hid; apply delete_insert_eq|].
  exists calls. split; [exact Hlog|exact Hcalls].
Qed.

Lemma unload_request_flushed_at_once_witness :
  let C := Sample.collaborators (Some (Sample.options false false false false)) None
             false false false false false in
  let request := Sample.message 0 5 None false true true in
  let sender := {| sender_tab := Some (Sample.tab 5); sender_url := "https://example.org/" |} in
  let w := Sample.with_pending [(5, ClosedMarker)] in
  let w' := snd (onMessage request sender w) in
  pendingMessages w' = delete 5 (pendingMessages w)
  /\ exists calls,
       log w' = log w ++ EvSaveContent (SaveRequest (set_msg_tab request (Some (Sample.tab 5))))
                                       (Some (Sample.tab 5)) :: calls
       /\ count_events is_saveContent calls = O.
Proof.
  intros C request sender w.
  apply (unload_request_flushed_at_once C request sender (Sample.tab 5) w); reflexivity.
Defined.

(** X15.  A request that is to be saved at once -- a plain one, or one with
    [autoSaveUnload] -- from a sender without a tab, when line 59 does not
    apply: the entry of [message.tabId] is deleted, [saveContent] is called
    with an undefined tab, and the handler throws a [TypeError] without
    having called any collaborator. *)
Theorem immediate_request_without_tab_throws
    (C : Collaborators) (message : Message) (sender : Sender) (w : World) :
  endsWith (msg_method message) ".save" = true ->
  sender_tab sender = None ->
  truthy_opt entry_removed (pendingMessages w !! msg_tabId message)
    && msg_autoSaveRemove message = false ->
  msg_autoSaveDiscard message || msg_autoSaveRemove message = false
    \/ msg_autoSaveUnload message = true ->
  exists what,
    onMessage message sender w
    = (Thrown (TypeError what),
       record_event (EvSaveContent (SaveRequest message) None)
         (set_pendingMessages (delete (msg_tabId message)) w)).
Proof.
  intros Hsave Htab Hmarker Hnow.
  unfold onMessage, saveContent.
  rewrite (endsWith_save_not_init _ Hsave), Hsave, Htab.
  run_monad.
  destruct (msg_autoSaveDiscard message || msg_autoSaveRemove message).
  - destruct Hnow as [Hnow|Hnow]; [discriminate|].
    cbn. rewrite Hmarker. cbn. rewrite Hnow. cbn. eexists. reflexivity.
  - cbn. eexists. reflexivity.
Qed.

Lemma immediate_request_without_tab_throws_witness :
  let C := Sample.collaborators (Some (Sample.options false false false false)) None
             false false false false false in
  let request := Sample.message 0 5 None false false false in
  let sender := {| sender_tab := None; sender_url := "https://example.org/" |} in
  let w := Sample.with_pending [(5, ClosedMarker)] in
  exists what,
    onMessage request sender w
    = (Thrown (TypeError what),
       record_event (EvSaveContent (SaveRequest request) None)
         (set_pendingMessages (delete 5) w)).
Proof.
  intros C request sender w.
  apply (immediate_request_without_tab_throws C request sender w); try reflexivity.
  left. reflexivity.
Defined.

(** ** The external API, the load hook and the broadcast *)

Section BackgroundFacts.

Context {C : Collaborators} {E : Environment}.

(** [isEnabled] as a function of the world. *)
Lemma isEnabled_value tab w :
  isEnabled (Some tab) w
  = (Ok (Some ((autoSaveAll (tabsData w)
                || (autoSaveUnpinned (tabsData w) && negb (tab_pinned tab))
                || tab_opt_in (tabsData w) (tab_id tab))
               && match config_getRule (tab_url tab) with
                  | None => true
                  | Some rule =>
                      profile_differs (autoSaveProfile rule) config_DISABLED_PROFILE_NAME
                  end)), w).
Proof. reflexivity. Qed.



End BackgroundFacts.



(** X17.  [onInit] saves the tab at load exactly when the options of its URL
    resolve, one of [autoSaveLoad] and [autoSaveLoadOrUnload] is set in
    them, and [isEnabled] answers [true] for the tab.  It never throws and
    leaves the world as it was. *)
Theorem onInit_saves_at_load_iff (C : Collaborators) (E : Environment)
    (tab : Tab) (bg : Background) :
  let out := onInit tab bg in
  let wanted :=
    exists options,
      config_getOptions (tab_url tab) true = Some options
      /\ (autoSaveLoad options = true \/ autoSaveLoadOrUnload options = true)
      /\ fst (isEnabled (Some tab) (bg_world bg)) = Ok (Some true) in
  fst out = Ok tt
  /\ bg_world (snd out) = bg_world bg
  /\ ((wanted /\ bg_notices (snd out) = bg_notices bg ++ [BusinessSaveTabs [tab] true])
      \/ (~ wanted /\ bg_notices (snd out) = bg_notices bg)).
Proof.
  intros out wanted. unfold out, wanted, onInit, in_world, notify. run_monad.
  rewrite isEnabled_value. cbn [fst snd bg_world bg_notices].
  set (enabled := (_ && _)).
  destruct (config_getOptions (tab_url tab) true) as [options|].
  - destruct (autoSaveLoad options) eqn:Hload;
      destruct (autoSaveLoadOrUnload options) eqn:Hunload;
      destruct enabled; cbn.
    all: split; [reflexivity|]; split; [reflexivity|].
    all: try (left; split; [exists options; auto|reflexivity]).
    all: right; split; [|reflexivity].
    all: intros (o & Ho & Hflags & He); inversion Ho; subst o;
         first [discriminate He | rewrite Hload, Hunload in Hflags;
                                  destruct Hflags; discriminate].
  - cbn. split; [reflexivity|]. split; [reflexivity|].
    right. split; [|reflexivity]. intros (o & Ho & _). discriminate.
Qed.

(** X18.  [onMessageExternal] for "enableAutoSave" on a tab for which
    [tabsData.get] answers a record: the data are stored with the tab's
    [autoSave] set to [message.enabled], the tab's UI is refreshed once, and
    a query "isAutoSaveEnabled" for the same tab then answers [true] exactly
    when a global flag selects the tab or [message.enabled] was set, and no
    rule of the tab's URL carries the disabled profile. *)
Theorem enable_then_query (C : Collaborators) (E : Environment)
    (enable query : ExternalMessage) (tab : Tab) (record : TabData) (bg : Background) :
  ext_method enable = "enableAutoSave" ->
  ext_method query = "isAutoSaveEnabled" ->
  let answered := tabsData_get (tab_id tab) (tabsData (bg_world bg)) in
  perTab answered !! tab_id tab = Some record ->
  let out1 := onMessageExternal enable (Some tab) bg in
  let out2 := onMessageExternal query (Some tab) (snd out1) in
  fst out1 = Ok None
  /\ tabsData (bg_world (snd out1)) = set_autoSave answered (tab_id tab) (ext_enabled enable)
  /\ bg_notices (snd out1) = bg_notices bg ++ [UiRefreshTab tab]
  /\ snd out2 = snd out1
  /\ exists enabled,
       fst out2 = Ok (Some enabled)
       /\ (enabled = true <->
           (autoSaveAll answered = true
            \/ (autoSaveUnpinned answered = true /\ tab_pinned tab = false)
            \/ ext_enabled enable = true)
           /\ ~ (exists rule, config_getRule (tab_url tab) = Some rule
                              /\ autoSaveProfile rule = Some config_DISABLED_PROFILE_NAME)).
Proof.
  intros Henable Hquery answered Hrecord out1 out2.
  assert (H1 : out1 = (Ok None,
                       {| bg_world := set_tabsData
                                        (set_autoSave answered (tab_id tab) (ext_enabled enable))
                                        (bg_world bg);
                          bg_notices := bg_notices bg ++ [UiRefreshTab tab] |})).
  { unfold out1, onMessageExternal. rewrite Henable.
    unfold in_world, notify. run_monad. cbn. fold answered. rewrite Hrecord. reflexivity. }
  assert (H2 : out2 = (fst (isEnabled (Some tab) (bg_world (snd out1))), snd out1)).
  { unfold out2, onMessageExternal. rewrite Hquery.
    unfold in_world. run_monad. cbn -[out1].
    destruct (snd out1). reflexivity. }
  rewrite H2. rewrite H1. cbn [fst snd bg_world bg_notices].
  split; [reflexivity|]. split; [reflexivity|]. split; [reflexivity|]. split; [reflexivity|].
  rewrite isEnabled_value. cbn [fst].
  eexists. split; [reflexivity|].
  cbn [tabsData set_tabsData set_autoSave autoSaveAll autoSaveUnpinned].
  unfold tab_opt_in, profile_differs, set_autoSave. cbn [perTab].
  rewrite lookup_insert_eq. cbn [td_autoSave].
  rewrite andb_true_iff, !orb_true_iff, andb_true_iff, negb_true_iff.
  split.
  - intros [Hflags Hrule]. split.
    + destruct Hflags as [[Hall|Hunpinned]|Hopt]; auto.
    + intros (rule & Hr & Hp). rewrite Hr, Hp in Hrule.
      rewrite String.eqb_refl in Hrule. discriminate.
  - intros [Hflags Hrule]. split.
    + destruct Hflags as [Hall|[Hunpinned|Hopt]]; auto.
    + destruct (config_getRule (tab_url tab)) as [[[p|]]|]; cbn; try reflexivity.
      destruct (String.eqb p config_DISABLED_PROFILE_NAME) eqn:Eq; [|reflexivity].
      apply String.eqb_eq in Eq. subst p.
      exfalso. apply Hrule. eexists. split; reflexivity.
Qed.

Lemma enable_then_query_witness :
  let C := Sample.collaborators None None false false false false false in
  let E := SampleBackground.environment true [] [] false in
  let enable := {| ext_method := "enableAutoSave"; ext_enabled := true |} in
  let query := {| ext_method := "isAutoSaveEnabled"; ext_enabled := false |} in
  let bg := SampleBackground.start (initial Sample.data) in
  let out1 := onMessageExternal enable (Some (Sample.tab 5)) bg in
  let out2 := onMessageExternal query (Some (Sample.tab 5)) (snd out1) in
  fst out1 = Ok None
  /\ tabsData (bg_world (snd out1))
     = set_autoSave (SampleBackground.get true 5 Sample.data) 5 true
  /\ bg_notices (snd out1) = [UiRefreshTab (Sample.tab 5)]
  /\ snd out2 = snd out1
  /\ exists enabled,
       fst out2 = Ok (Some enabled)
       /\ (enabled = true <->
           (false = true \/ (false = true /\ false = false) \/ true = true)
           /\ ~ (exists rule, None = Some rule
                              /\ autoSaveProfile rule = Some "__Disabled_Settings__")).
Proof.
  intros C E enable query bg.
  apply (enable_then_query C E enable query (Sample.tab 5) {| td_autoSave := false |} bg);
    reflexivity.
Defined.

(** X19.  [onMessageExternal] for "enableAutoSave" without a tab, or on a
    tab for which [tabsData.get] answers no record, throws a [TypeError]:
    nothing is stored and no UI is refreshed. *)
Theorem enable_without_record_throws (C : Collaborators) (E : Environment)
    (message : ExternalMessage) (currentTab : option Tab) (bg : Background) :
  ext_method message = "enableAutoSave" ->
  match currentTab with
  | Some tab =>
      perTab (tabsData_get (tab_id tab) (tabsData (bg_world bg))) !! tab_id tab = None
  | None => True
  end ->
  exists what, onMessageExternal message currentTab bg = (Thrown (TypeError what), bg).
Proof.
  intros Hmethod Hrecord. unfold onMessageExternal. rewrite Hmethod. run_monad. cbn.
  destruct currentTab as [tab|]; [rewrite Hrecord|]; eexists; reflexivity.
Qed.

Lemma enable_without_record_throws_witness :
  let C := Sample.collaborators None None false false false false false in
  let E := SampleBackground.environment false [] [] false in
  let bg := SampleBackground.start (initial Sample.data) in
  exists what,
    onMessageExternal {| ext_method := "enableAutoSave"; ext_enabled := true |}
      (Some (Sample.tab 5)) bg
    = (Thrown (TypeError what), bg).
Proof.
  intros C E bg.
  apply (enable_without_record_throws C E
           {| ext_method := "enableAutoSave"; ext_enabled := true |}
           (Some (Sample.tab 5)) bg); reflexivity.
Defined.

(** X20.  The external API stays away from the save coordination: whatever
    the message and the tab, [onMessageExternal] leaves the registry, the
    redirect table and the log of the save pipeline as they were. *)
Theorem onMessageExternal_leaves_registry (C : Collaborators) (E : Environment)
    (message : ExternalMessage) (currentTab : option Tab) (bg : Background) :
  let w' := bg_world (snd (onMessageExternal message currentTab bg)) in
  pendingMessages w' = pendingMessages (bg_world bg)
  /\ replacedTabIds w' = replacedTabIds (bg_world bg)
  /\ log w' = log (bg_world bg).
Proof.
  unfold onMessageExternal, in_world, notify. run_monad. cbn.
  destruct (String.eqb (ext_method message) "enableAutoSave");
    destruct (String.eqb (ext_method message) "isAutoSaveEnabled");
    destruct currentTab as [tab|]; cbn;
    try destruct (perTab (tabsData_get (tab_id tab) (tabsData (bg_world bg))) !! tab_id tab);
    cbn; repeat split; reflexivity.
Qed.

(** ** [endsWith] against its meaning *)

Lemma substring_all (s : string) : substring 0 (String.length s) s = s.
Proof. induction s as [|c s IH]; cbn; [reflexivity|]. f_equal. exact IH. Qed.

Lemma substring_skip (p s : string) (k : nat) :
  substring (String.length p) k (p ++ s)%string = substring 0 k s.
Proof. induction p as [|c p IH]; simpl; [reflexivity|exact IH]. Qed.

Lemma length_append (p s : string) :
  String.length (p ++ s)%string = (String.length p + String.length s)%nat.
Proof. induction p as [|c p IH]; simpl; [reflexivity|]. f_equal. exact IH. Qed.

Lemma split_at (s : string) :
  forall m, (m <= String.length s)%nat ->
    s = (substring 0 m s ++ substring m (String.length s - m) s)%string.
Proof.
  induction s as [|c s IH]; intros m Hm; simpl in Hm.
  - destruct m; [reflexivity|lia].
  - destruct m as [|m]; simpl.
    + rewrite substring_all. reflexivity.
    + transitivity (String c (substring 0 m s ++ substring m (String.length s - m) s)%string);
        [f_equal; apply IH; lia|reflexivity].
Qed.

(** [endsWith s suffix] holds exactly when [s] is some prefix followed by
    [suffix]. *)
Lemma endsWith_spec (s suffix : string) :
  endsWith s suffix = true <-> exists prefix, s = (prefix ++ suffix)%string.
Proof.
  unfold endsWith. rewrite andb_true_iff, Nat.leb_le, String.eqb_eq. split.
  - intros [Hle Hsub].
    exists (substring 0 (String.length s - String.length suffix) s).
    pose proof (split_at s (String.length s - String.length suffix) ltac:(lia)) as Hsplit.
    replace (String.length s - (String.length s - String.length suffix))%nat
      with (String.length suffix) in Hsplit by lia.
    rewrite Hsub in Hsplit. exact Hsplit.
  - intros [prefix ->]. rewrite length_append. split; [lia|].
    replace (String.length prefix + String.length suffix - String.length suffix)%nat
      with (String.length prefix) by lia.
    rewrite substring_skip. apply substring_all.
Qed.

(** X21.  [onMessage] only acts on methods that end in ".init" or ".save":
    a message whose method is neither some prefix followed by ".init" nor
    some prefix followed by ".save" gets no answer and leaves the world as
    it was, whatever its flags and its sender. *)
Theorem onMessage_other_method_ignored
    (C : Collaborators) (message : Message) (sender : Sender) (w : World) :
  (forall prefix, msg_method message <> (prefix ++ ".init")%string) ->
  (forall prefix, msg_method message <> (prefix ++ ".save")%string) ->
  onMessage message sender w = (Ok NoResponse, w).
Proof.
  intros Hinit Hsave. unfold onMessage.
  destruct (endsWith (msg_method message) ".init") eqn:Ei.
  { apply endsWith_spec in Ei as [prefix Hp]. destruct (Hinit prefix Hp). }
  destruct (endsWith (msg_method message) ".save") eqn:Es.
  { apply endsWith_spec in Es as [prefix Hp]. destruct (Hsave prefix Hp). }
  reflexivity.
Qed.

Lemma onMessage_other_method_ignored_witness :
  let C := Sample.collaborators (Some (Sample.options false false false false)) None
             false false false false false in
  let message := {| msg_ref := 0; msg_method := "autosave.saved"; msg_tabId := 5;
                    msg_tabIndex := 0; msg_taskId := None; msg_autoSaveDiscard := true;
                    msg_autoSaveRemove := true; msg_autoSaveUnload := true;
                    msg_payload := Sample.payload; msg_tab := None |} in
  let sender := {| sender_tab := Some (Sample.tab 5); sender_url := "" |} in
  let w := Sample.with_pending [(5, ClosedMarker)] in
  onMessage message sender w = (Ok NoResponse, w).
Proof.
  intros C message sender w.
  apply (onMessage_other_method_ignored C message sender w).
  - intros prefix Hp.
    assert (H : endsWith (msg_method message) ".init" = true)
      by (apply endsWith_spec; exists prefix; exact Hp).
    discriminate H.
  - intros prefix Hp.
    assert (H : endsWith (msg_method message) ".save" = true)
      by (apply endsWith_spec; exists prefix; exact Hp).
    discriminate H.
Defined.
